(** * KTBB SSE engine: daily levels and triggers

    A shallow embedding of [sse_engine.py].  The engine is a pure function of
    fifteen Python floats.  It is written once, over an interface [PyNum] of
    the float operations the source uses, and read at two carriers:

    - [Q], exact rational arithmetic, on which the properties of the engine
      are proved (rounding error of binary64 is outside this carrier);
    - [float], Rocq's primitive IEEE-754 binary64, on which concrete calls
      are evaluated the way CPython evaluates them.

    Properties that rest on the comparisons alone are proved once, for every
    carrier whose comparisons obey [order_laws]; the laws are proved for both
    carriers. *)

From Stdlib Require Import ZArith QArith Qabs Qround Qminmax Lqa Lia List Bool.
From Stdlib Require Import Floats Uint63.
Import ListNotations.

Local Open Scope Q_scope.

Declare Scope py_scope.
Delimit Scope py_scope with py.

(** ** The numeric interface *)

Class PyNum (F : Type) : Type := {
  lit    : Q -> F;            (* a decimal literal of the source, [0.0015] *)
  of_int : Z -> F;            (* an [int] operand promoted by [int * float] *)
  add    : F -> F -> F;
  sub    : F -> F -> F;
  mul    : F -> F -> F;
  div    : F -> F -> F;
  py_abs : F -> F;
  leb    : F -> F -> bool;
  ltb    : F -> F -> bool;
  round1 : F -> F             (* [round(x, 1)] *)
}.

Infix "+" := add : py_scope.
Infix "-" := sub : py_scope.
Infix "*" := mul : py_scope.
Infix "/" := div : py_scope.
Infix "<=?" := leb (at level 70, no associativity) : py_scope.
Infix "<?" := ltb (at level 70, no associativity) : py_scope.
Notation "x >=? y" := (leb y x) (at level 70, no associativity) : py_scope.
Notation "x >? y" := (ltb y x) (at level 70, no associativity) : py_scope.

(** ** Exact carrier *)

(** Round half to even, the rule of Python's [round] on the exact value. *)
Definition round_half_even (q : Q) : Z :=
  let f := Qfloor q in
  match Qcompare (q - inject_Z f) (1 # 2) with
  | Lt => f
  | Gt => (f + 1)%Z
  | Eq => if Z.even f then f else (f + 1)%Z
  end.

Definition Qround1 (q : Q) : Q := round_half_even (q * 10) # 10.

Definition Qltb (a b : Q) : bool := negb (Qle_bool b a).

#[export] Instance Q_PyNum : PyNum Q := {
  lit q := q;
  of_int := inject_Z;
  add := Qplus;
  sub := Qminus;
  mul := Qmult;
  div := Qdiv;
  py_abs := Qabs;
  leb := Qle_bool;
  ltb := Qltb;
  round1 := Qround1
}.

(** ** Binary64 carrier *)

Module B64.

Definition of_Z (z : Z) : float :=
  match z with
  | Z0 => PrimFloat.zero
  | Zpos p => PrimFloat.of_uint63 (Uint63.of_Z (Zpos p))
  | Zneg p => PrimFloat.opp (PrimFloat.of_uint63 (Uint63.of_Z (Zpos p)))
  end.

(** The parser maps a decimal literal to the nearest double; so does the
    correctly rounded quotient of two integers below 2^53. *)
Definition of_Q (q : Q) : float :=
  PrimFloat.div (of_Z (Qnum q)) (of_Z (Zpos (Qden q))).

(** The exact value of a finite double. *)
Definition to_Q (x : float) : option Q :=
  match Prim2SF x with
  | S754_zero _ => Some 0
  | S754_finite s m e =>
      let v := (inject_Z (Zpos m) * Qpower 2 e)%Q in
      Some (if s then Qopp v else v)
  | _ => None
  end.

(** [round(x, 1)] of CPython: the exact value is rounded half-even to one
    decimal and the decimal is read back as the nearest double.  From 2^53/10
    upwards doubles are at least 1/8 apart and the result is [x] itself. *)
Definition round1 (x : float) : float :=
  match to_Q x with
  | None => x
  | Some q =>
      let n := round_half_even (q * 10) in
      if (n =? 0)%Z then PrimFloat.mul x PrimFloat.zero
      else if (Z.abs n <? 2 ^ 53)%Z then PrimFloat.div (of_Z n) (of_Z 10)
      else x
  end.

End B64.

#[export] Instance float_PyNum : PyNum float := {
  lit := B64.of_Q;
  of_int := B64.of_Z;
  add := PrimFloat.add;
  sub := PrimFloat.sub;
  mul := PrimFloat.mul;
  div := PrimFloat.div;
  py_abs := PrimFloat.abs;
  leb := PrimFloat.leb;
  ltb := PrimFloat.ltb;
  round1 := B64.round1
}.

(** ** Data model *)

(** The source passes the timeframe and the role as the strings ["4H"],
    ["1H"], ["resistance"], ["support"]; its tests are [tf == "4H"] and
    [role == "resistance"], the other value taking the [else] branch. *)
Inductive Timeframe : Type := FourHour | OneHour.
Inductive Role : Type := Resistance | Support.

Definition is_4H (tf : Timeframe) : bool :=
  match tf with FourHour => true | OneHour => false end.

Definition is_resistance (role : Role) : bool :=
  match role with Resistance => true | Support => false end.

(** One entry of [htf_resistance] / [htf_support]. *)
Record Shelf (F : Type) : Type := mkShelf {
  tf : Timeframe;
  level : F;
  strength : F;
  primary : bool
}.
Arguments mkShelf {F}.
Arguments tf {F}.
Arguments level {F}.
Arguments strength {F}.
Arguments primary {F}.

(** The dictionary returned by [compute_dm_levels]. *)
Record DmLevels (F : Type) : Type := mkDmLevels {
  daily_support : F;
  daily_resistance : F;
  breakout_trigger : F;
  breakdown_trigger : F;
  htf_resistance : list (Shelf F);
  htf_support : list (Shelf F)
}.
Arguments mkDmLevels {F}.
Arguments daily_support {F}.
Arguments daily_resistance {F}.
Arguments breakout_trigger {F}.
Arguments breakdown_trigger {F}.
Arguments htf_resistance {F}.
Arguments htf_support {F}.

(** ** The engine *)

Section Engine.

Context {F : Type} `{PyNum F}.
Local Open Scope py_scope.

(** Python's [max] and [min] keep the first of equal arguments: a later
    item replaces the current one only when strictly greater (smaller). *)
Definition py_max2 (a b : F) : F := if b >? a then b else a.
Definition py_min2 (a b : F) : F := if b <? a then b else a.

Definition py_max (x : F) (xs : list F) : F := fold_left py_max2 xs x.
Definition py_min (x : F) (xs : list F) : F := fold_left py_min2 xs x.

Definition _pct_diff (a b : F) : F :=
  let denom := if py_abs b >? lit (1 # 1000000000) then py_abs b else lit 1 in
  py_abs (a - b) / denom.

Definition candidates (role : Role)
    (weekly_val weekly_poc weekly_vah f24_val f24_poc f24_vah : F) : F * list F :=
  if is_resistance role
  then (weekly_vah, [weekly_poc; f24_vah; f24_poc])
  else (weekly_val, [weekly_poc; f24_val; f24_poc]).

(** The local [min_pct] of [_frvp_alignment]. *)
Definition min_pct (level : F) (role : Role)
    (weekly_val weekly_poc weekly_vah f24_val f24_poc f24_vah : F) : F :=
  let '(c, cs) :=
    candidates role weekly_val weekly_poc weekly_vah f24_val f24_poc f24_vah in
  py_min (_pct_diff level c) (map (_pct_diff level) cs).

Definition _frvp_alignment (level : F) (role : Role)
    (weekly_val weekly_poc weekly_vah f24_val f24_poc f24_vah : F) : Z :=
  let min_pct :=
    min_pct level role weekly_val weekly_poc weekly_vah f24_val f24_poc f24_vah in
  if min_pct <=? lit (15 # 10000) then 2%Z
  else if min_pct <=? lit (30 # 10000) then 1%Z
  else 0%Z.

(** The local [raw] of [_htf_strength]. *)
Definition raw_strength (frvp_align : Z) (tf : Timeframe) : Z :=
  let touches := 1%Z in
  let volume_rating := 1%Z in
  let structural_tag := (if is_4H tf then 1 else 0)%Z in
  (3 * touches + 2 * volume_rating + 2 * frvp_align + 1 * structural_tag)%Z.

(** The local [strength] of [_htf_strength], before [round]. *)
Definition strength_unrounded (level : F) (tf : Timeframe) (role : Role)
    (weekly_val weekly_poc weekly_vah f24_val f24_poc f24_vah : F) : F :=
  let frvp_align :=
    _frvp_alignment level role
      weekly_val weekly_poc weekly_vah f24_val f24_poc f24_vah in
  let raw := raw_strength frvp_align tf in
  py_max2 (lit 0) (py_min2 (lit 10) (of_int raw * (lit 10 / lit 12))).

Definition _htf_strength (level : F) (tf : Timeframe) (role : Role)
    (weekly_val weekly_poc weekly_vah f24_val f24_poc f24_vah : F) : F :=
  round1 (strength_unrounded level tf role
            weekly_val weekly_poc weekly_vah f24_val f24_poc f24_vah).

Definition tf_eqb (a b : Timeframe) : bool :=
  match a, b with
  | FourHour, FourHour | OneHour, OneHour => true
  | _, _ => false
  end.

(** The choice of the primary shelf, [if s4h >= s1h: ... else: ...] on the
    support side and [if r4h >= r1h: ... else: ...] on the resistance side:
    the daily level and the primary timeframe, from the two strengths and
    the two levels. *)
Definition pick_primary (s4h s1h h4_level h1_level : F) : F * Timeframe :=
  if s4h >=? s1h then (h4_level, FourHour) else (h1_level, OneHour).

(** [_choose_daily_levels] up to its safety block: both sides scored, the
    primary shelf of each side chosen, the shelf records built. *)
Definition strength_selection
    (h4_supply h4_demand h1_supply h1_demand
     weekly_val weekly_poc weekly_vah f24_val f24_poc f24_vah : F)
    : F * F * list (Shelf F) * list (Shelf F) :=
  (* --- Support side --- *)
  let s4h := _htf_strength h4_demand FourHour Support
               weekly_val weekly_poc weekly_vah f24_val f24_poc f24_vah in
  let s1h := _htf_strength h1_demand OneHour Support
               weekly_val weekly_poc weekly_vah f24_val f24_poc f24_vah in
  let '(daily_support, primary_support_tf) :=
    pick_primary s4h s1h h4_demand h1_demand in
  let htf_support :=
    [ mkShelf FourHour h4_demand s4h (tf_eqb primary_support_tf FourHour);
      mkShelf OneHour h1_demand s1h (tf_eqb primary_support_tf OneHour) ] in
  (* --- Resistance side --- *)
  let r4h := _htf_strength h4_supply FourHour Resistance
               weekly_val weekly_poc weekly_vah f24_val f24_poc f24_vah in
  let r1h := _htf_strength h1_supply OneHour Resistance
               weekly_val weekly_poc weekly_vah f24_val f24_poc f24_vah in
  let '(daily_resistance, primary_res_tf) :=
    pick_primary r4h r1h h4_supply h1_supply in
  let htf_resistance :=
    [ mkShelf FourHour h4_supply r4h (tf_eqb primary_res_tf FourHour);
      mkShelf OneHour h1_supply r1h (tf_eqb primary_res_tf OneHour) ] in
  (daily_support, daily_resistance, htf_resistance, htf_support).

Definition _choose_daily_levels
    (h4_supply h4_demand h1_supply h1_demand
     weekly_val weekly_poc weekly_vah f24_val f24_poc f24_vah : F)
    : F * F * list (Shelf F) * list (Shelf F) :=
  let '(daily_support, daily_resistance, htf_resistance, htf_support) :=
    strength_selection h4_supply h4_demand h1_supply h1_demand
      weekly_val weekly_poc weekly_vah f24_val f24_poc f24_vah in
  (* Safety: if levels are inverted, fix ordering. *)
  if daily_support >=? daily_resistance then
    (py_min2 h4_demand h1_demand, py_max2 h4_supply h1_supply,
     htf_resistance, htf_support)
  else
    (daily_support, daily_resistance, htf_resistance, htf_support).

Definition _build_triggers
    (daily_support daily_resistance
     h4_supply h4_demand h1_supply h1_demand
     f24_val f24_poc f24_vah morn_val morn_poc morn_vah r30_high r30_low : F)
    : F * F :=
  let span := py_max2 (daily_resistance - daily_support) (lit 1) in
  (* --- Initial directional candidates --- *)
  let breakout_candidate :=
    py_max h1_supply [h4_supply; f24_vah; f24_poc; morn_vah; r30_high] in
  let breakdown_candidate :=
    py_min h1_demand [h4_demand; f24_val; f24_poc; morn_val; r30_low] in
  (* --- Core spacing --- *)
  let min_gap_from_edges :=
    py_max2 (span * lit (5 # 100)) (daily_support * lit (15 # 10000)) in
  let breakdown := breakdown_candidate in
  let breakout := breakout_candidate in
  (* First, push off absolute edges. *)
  let breakdown :=
    if breakdown <=? daily_support + min_gap_from_edges
    then daily_support + min_gap_from_edges else breakdown in
  let breakout :=
    if breakout >=? daily_resistance - min_gap_from_edges
    then daily_resistance - min_gap_from_edges else breakout in
  (* Ensure ordering; if too tight, center them. *)
  let '(breakdown, breakout) :=
    if breakout <=? breakdown + min_gap_from_edges then
      let mid := (daily_support + daily_resistance) / lit 2 in
      (mid - min_gap_from_edges / lit 2, mid + min_gap_from_edges / lit 2)
    else (breakdown, breakout) in
  (* Final hard clamp. *)
  let breakdown :=
    py_max2 (daily_support + min_gap_from_edges)
      (py_min2 breakdown (daily_resistance - of_int 2 * min_gap_from_edges)) in
  let breakout :=
    py_max2 (breakdown + min_gap_from_edges)
      (py_min2 breakout (daily_resistance - min_gap_from_edges)) in
  (breakdown, breakout).

Definition compute_dm_levels
    (h4_supply h4_demand h1_supply h1_demand
     weekly_val weekly_poc weekly_vah f24_val f24_poc f24_vah
     morn_val morn_poc morn_vah r30_high r30_low : F) : DmLevels F :=
  (* 1) Choose daily support / resistance from HTF shelves only. *)
  let '(daily_support, daily_resistance, htf_resistance, htf_support) :=
    _choose_daily_levels h4_supply h4_demand h1_supply h1_demand
      weekly_val weekly_poc weekly_vah f24_val f24_poc f24_vah in
  (* 2) Build breakout / breakdown triggers. *)
  let '(breakdown_trigger, breakout_trigger) :=
    _build_triggers daily_support daily_resistance
      h4_supply h4_demand h1_supply h1_demand
      f24_val f24_poc f24_vah morn_val morn_poc morn_vah r30_high r30_low in
  {| daily_support := round1 daily_support;
     daily_resistance := round1 daily_resistance;
     breakout_trigger := round1 breakout_trigger;
     breakdown_trigger := round1 breakdown_trigger;
     htf_resistance := htf_resistance;
     htf_support := htf_support |}.

End Engine.

(** ** The fifteen inputs, as one record for stating scenarios *)

Record EngineInput (F : Type) : Type := mkInput {
  in_h4_supply : F; in_h4_demand : F; in_h1_supply : F; in_h1_demand : F;
  in_weekly_val : F; in_weekly_poc : F; in_weekly_vah : F;
  in_f24_val : F; in_f24_poc : F; in_f24_vah : F;
  in_morn_val : F; in_morn_poc : F; in_morn_vah : F;
  in_r30_high : F; in_r30_low : F
}.
Arguments mkInput {F}.

Definition run {F : Type} `{PyNum F} (i : EngineInput F) : DmLevels F :=
  let '(mkInput a b c d e f g h k l m n o p q) := i in
  compute_dm_levels a b c d e f g h k l m n o p q.

(** The same decimal input read at either carrier. *)
Definition input_of {F : Type} `{PyNum F} (i : EngineInput Q) : EngineInput F :=
  let '(mkInput a b c d e f g h k l m n o p q) := i in
  mkInput (lit a) (lit b) (lit c) (lit d) (lit e) (lit f) (lit g) (lit h)
          (lit k) (lit l) (lit m) (lit n) (lit o) (lit p) (lit q).

(** Scenario A of the specification, a well-separated band. *)
Definition scenario_A : EngineInput Q :=
  mkInput 110 90 108 92 89 95 109 91 96 107 93 97 105 100 98.

(** Scenario B of the specification, supply shelves below demand shelves. *)
Definition scenario_B : EngineInput Q :=
  mkInput 80 100 85 95 79 90 101 84 90 96 88 90 92 91 89.

(** A band of 1 at a price near 10, supply above demand. *)
Definition scenario_low_price : EngineInput Q :=
  mkInput (1106 # 100) (1006 # 100) (1106 # 100) (1006 # 100)
          (105 # 10) (106 # 10) (107 # 10) (105 # 10) (106 # 10) (107 # 10)
          (105 # 10) (106 # 10) (107 # 10) (107 # 10) (105 # 10).

(** A band of 100 at a price of 50000, supply above demand. *)
Definition scenario_narrow : EngineInput Q :=
  mkInput 50100 50000 50100 50000 49000 50050 51000 49900 50050 50200
          50020 50050 50080 50060 50040.

(** * Reference definitions

    What the statements below compare the engine with, over [Q] and with the
    library's [Qmin], [Qmax] and decision procedures. *)

(** The band width and the spacing of section 4.4, with the library's [Qmax]. *)
Definition span_of (support resistance : Q) : Q := Qmax (resistance - support) 1.

Definition min_gap (support resistance : Q) : Q :=
  Qmax (span_of support resistance * (5 # 100)) (support * (15 # 10000)).

(** The four components of the tuple returned by [_choose_daily_levels]. *)
Definition support_of {F} (t : F * F * list (Shelf F) * list (Shelf F)) : F :=
  let '(s, _, _, _) := t in s.
Definition resistance_of {F} (t : F * F * list (Shelf F) * list (Shelf F)) : F :=
  let '(_, r, _, _) := t in r.
Definition resistance_shelves {F} (t : F * F * list (Shelf F) * list (Shelf F))
    : list (Shelf F) :=
  let '(_, _, hr, _) := t in hr.
Definition support_shelves {F} (t : F * F * list (Shelf F) * list (Shelf F))
    : list (Shelf F) :=
  let '(_, _, _, hs) := t in hs.

(** The four references a role looks at, in the order of the source. *)
Definition references (role : Role)
    (weekly_val weekly_poc weekly_vah f24_val f24_poc f24_vah : Q) : list Q :=
  match role with
  | Resistance => [weekly_vah; weekly_poc; f24_vah; f24_poc]
  | Support => [weekly_val; weekly_poc; f24_val; f24_poc]
  end.

(** The relative distance as the specification writes it, with a floor of 1
    under the magnitude of the reference. *)
Definition rel_dist_floor (level ref : Q) : Q :=
  Qabs (level - ref) / Qmax (Qabs ref) 1.

(** The relative distance with the guard of [_pct_diff]: the magnitude of the
    reference when it exceeds 1e-9, and 1 otherwise. *)
Definition rel_dist_guard (level ref : Q) : Q :=
  Qabs (level - ref) /
  (if Qlt_le_dec (1 # 1000000000) (Qabs ref) then Qabs ref else 1).

Definition least (ds : list Q) : Q :=
  match ds with
  | [] => 0
  | d :: ds' => fold_left Qmin ds' d
  end.

Definition band (m : Q) : Z :=
  if Qlt_le_dec (15 # 10000) m
  then (if Qlt_le_dec (30 # 10000) m then 0 else 1)
  else 2.

(** The reference definition of the alignment score over a distance [d]. *)
Definition alignment_by (d : Q -> Q -> Q) (level : Q) (role : Role)
    (weekly_val weekly_poc weekly_vah f24_val f24_poc f24_vah : Q) : Z :=
  band (least (map (d level)
    (references role weekly_val weekly_poc weekly_vah f24_val f24_poc f24_vah))).

(** [o] is [u] rounded to one decimal: a whole number of tenths, at most
    half a tenth away from [u]. *)
Definition tenth_of (u o : Q) : Prop :=
  (exists n : Z, o = n # 10) /\ Qabs (o - u) <= 1 # 20.

(** Section 4.2 of the specification, with the library's [Qmin], [Qmax]. *)
Definition structural_tag (tf : Timeframe) : Z :=
  match tf with FourHour => 1 | OneHour => 0 end.

Definition strength_reference (alignment_score : Z) (tf : Timeframe) : Q :=
  let raw := (3 * 1 + 2 * 1 + 2 * alignment_score + 1 * structural_tag tf)%Z in
  Qround1 (Qmax 0 (Qmin 10 (inject_Z raw * (10 / 12)))).

Definition exactly_one_primary {F : Type} (l : list (Shelf F)) : Prop :=
  length (filter primary l) = 1%nat.

Definition shelves_of {F : Type} (role : Role)
    (t : F * F * list (Shelf F) * list (Shelf F)) : list (Shelf F) :=
  match role with
  | Resistance => resistance_shelves t
  | Support => support_shelves t
  end.

Definition level_of {F : Type} (role : Role)
    (t : F * F * list (Shelf F) * list (Shelf F)) : F :=
  match role with
  | Resistance => resistance_of t
  | Support => support_of t
  end.

(** [o] is what [round(u, 1)] returns, and that is [u] to one decimal. *)
Definition rounded_to_tenth (u o : Q) : Prop :=
  o = Qround1 u /\ tenth_of u o.

(** ** The reference in the arithmetic of the engine

    The definitions below are read at any carrier, with the carrier's own
    subtraction, division and comparisons: at [float] every operation rounds
    as the source does. *)

(** A value that compares with itself: every rational, every double but NaN. *)
Definition comparable {F : Type} `{PyNum F} (x : F) : Prop :=
  (x <=? x)%py = true.

(** What the proofs use of the comparisons of a carrier. *)
Record order_laws (F : Type) `{PyNum F} : Prop := {
  ltb_leb : forall a b : F, (a <? b)%py = true -> (a <=? b)%py = true;
  leb_total : forall a b : F,
    comparable a -> comparable b -> (a <? b)%py = false -> (b <=? a)%py = true;
  leb_trans : forall a b c : F,
    (a <=? b)%py = true -> (b <=? c)%py = true -> (a <=? c)%py = true
}.

Definition references_of {F : Type} (role : Role)
    (weekly_val weekly_poc weekly_vah f24_val f24_poc f24_vah : F) : list F :=
  match role with
  | Resistance => [weekly_vah; weekly_poc; f24_vah; f24_poc]
  | Support => [weekly_val; weekly_poc; f24_val; f24_poc]
  end.

(** [|level - ref| / m], with [m = |ref|] when [|ref|] exceeds 1e-9 and
    [m = 1] otherwise. *)
Definition reference_distance {F : Type} `{PyNum F} (level ref : F) : F :=
  let m := if (lit (1 # 1000000000) <? py_abs ref)%py then py_abs ref else lit 1 in
  (py_abs (level - ref) / m)%py.

Definition smaller {F : Type} `{PyNum F} (a b : F) : F :=
  if (a <=? b)%py then a else b.

(** The minimum of a non-empty list, from its right end. *)
Fixpoint minimum_of {F : Type} `{PyNum F} (x : F) (xs : list F) : F :=
  match xs with
  | [] => x
  | y :: ys => smaller x (minimum_of y ys)
  end.

Definition alignment_reference {F : Type} `{PyNum F} (level : F) (role : Role)
    (weekly_val weekly_poc weekly_vah f24_val f24_poc f24_vah : F) : Z :=
  match map (reference_distance level)
          (references_of role weekly_val weekly_poc weekly_vah
             f24_val f24_poc f24_vah) with
  | [] => 0
  | d :: ds =>
      let m := minimum_of d ds in
      if (m <=? lit (15 # 10000))%py then 2
      else if (m <=? lit (30 # 10000))%py then 1
      else 0
  end%Z.



(** The order of the doubles, through a key: the comparison of two doubles
    that are not NaN is the lexicographic comparison of their keys. *)
Definition sf_key (f : spec_float) : option (Z * Z * Z) :=
  match f with
  | S754_nan => None
  | S754_infinity true => Some (-2, 0, 0)%Z
  | S754_infinity false => Some (2, 0, 0)%Z
  | S754_zero _ => Some (0, 0, 0)%Z
  | S754_finite true m e => Some (-1, - e, - Zpos m)%Z
  | S754_finite false m e => Some (1, e, Zpos m)%Z
  end.

Definition key_compare (k1 k2 : Z * Z * Z) : comparison :=
  let '(a1, b1, c1) := k1 in
  let '(a2, b2, c2) := k2 in
  match Z.compare a1 a2 with
  | Eq => match Z.compare b1 b2 with Eq => Z.compare c1 c2 | c => c end
  | c => c
  end.

(** The distance of a level to its nearest reference: the least of the four
    exact relative distances. *)
Definition nearest_distance (level : Q) (role : Role)
    (weekly_val weekly_poc weekly_vah f24_val f24_poc f24_vah : Q) : Q :=
  least (map (rel_dist_guard level)
    (references role weekly_val weekly_poc weekly_vah f24_val f24_poc f24_vah)).

(** * Properties, proved on the exact carrier *)

(** ** Comparisons and extrema on [Q] *)

Lemma Qleb_spec (a b : Q) : BoolSpec (a <= b) (b < a) (Qle_bool a b).
Proof.
  destruct (Qle_bool a b) eqn:E; constructor.
  - now apply Qle_bool_iff.
  - apply Qnot_le_lt. intro L. apply Qle_bool_iff in L. congruence.
Qed.

Lemma Qltb_spec (a b : Q) : BoolSpec (a < b) (b <= a) (Qltb a b).
Proof.
  unfold Qltb. destruct (Qleb_spec b a); constructor; assumption.
Qed.

(** Reads the interface at [Q]. *)
Ltac at_Q :=
  cbv [lit of_int add sub mul div py_abs leb ltb round1 Q_PyNum inject_Z] in *.

Lemma py_max2_Qmax (a b : Q) : py_max2 a b == Qmax a b.
Proof.
  unfold py_max2; at_Q. destruct (Qltb_spec a b).
  - rewrite Q.max_r; [reflexivity | lra].
  - rewrite Q.max_l; [reflexivity | lra].
Qed.

Lemma py_min2_Qmin (a b : Q) : py_min2 a b == Qmin a b.
Proof.
  unfold py_min2; at_Q. destruct (Qltb_spec b a).
  - rewrite Q.min_r; [reflexivity | lra].
  - rewrite Q.min_l; [reflexivity | lra].
Qed.

Lemma py_max2_lub (a b : Q) : a <= py_max2 a b /\ b <= py_max2 a b.
Proof. unfold py_max2; at_Q. destruct (Qltb_spec a b); lra. Qed.

Lemma py_max2_case (a b : Q) : py_max2 a b = a \/ py_max2 a b = b.
Proof. unfold py_max2. destruct (_ <? _)%py; auto. Qed.

Lemma py_min2_glb (a b : Q) : py_min2 a b <= a /\ py_min2 a b <= b.
Proof. unfold py_min2; at_Q. destruct (Qltb_spec b a); lra. Qed.

Lemma py_min2_case (a b : Q) : py_min2 a b = a \/ py_min2 a b = b.
Proof. unfold py_min2. destruct (_ <? _)%py; auto. Qed.

(** ** The trigger builder *)

Lemma min_gap_floor (support resistance : Q) : 5 # 100 <= min_gap support resistance.
Proof.
  unfold min_gap, span_of.
  pose proof (Q.le_max_l (Qmax (resistance - support) 1 * (5 # 100))
                (support * (15 # 10000))).
  pose proof (Q.le_max_r (resistance - support) 1).
  lra.
Qed.

(** The last two assignments of [_build_triggers] decide its result: whatever
    the candidates and the earlier stages gave, the pair returned is the
    clamped pair below. *)
Lemma build_triggers_shape
    (sup res h4s h4d h1s h1d fv fp fh mv mp mh rh rl : Q) :
  exists b o : Q,
    let g := py_max2 (py_max2 (res - sup) 1 * (5 # 100)) (sup * (15 # 10000)) in
    let bd := py_max2 (sup + g) (py_min2 b (res - 2 * g)) in
    _build_triggers sup res h4s h4d h1s h1d fv fp fh mv mp mh rh rl
    = (bd, py_max2 (bd + g) (py_min2 o (res - g))).
Proof.
  unfold _build_triggers. at_Q.
  match goal with
  | |- context [if ?c then (?x, ?y) else (?u, ?v)] =>
      exists (if c then x else u), (if c then y else v); destruct c; reflexivity
  end.
Qed.

Lemma py_gap_is_min_gap (sup res : Q) :
  py_max2 (py_max2 (res - sup) 1 * (5 # 100)) (sup * (15 # 10000))
  == min_gap sup res.
Proof.
  unfold min_gap, span_of. rewrite py_max2_Qmax.
  apply Q.max_compat; [| reflexivity].
  now rewrite py_max2_Qmax.
Qed.

(** In exact arithmetic the unrounded pair returned by [_build_triggers]
    satisfies [breakdown + min_gap <= breakout] and
    [support + min_gap <= breakdown]; [min_gap] is at least 0.05, so
    [support < breakdown < breakout] strictly, whether or not [breakout]
    stays below [resistance]. *)
Lemma build_triggers_spacing_exact
    (sup res h4s h4d h1s h1d fv fp fh mv mp mh rh rl : Q) :
  let t := _build_triggers sup res h4s h4d h1s h1d fv fp fh mv mp mh rh rl in
  let breakdown := fst t in
  let breakout := snd t in
  breakdown + min_gap sup res <= breakout /\
  sup + min_gap sup res <= breakdown /\
  5 # 100 <= min_gap sup res /\
  sup < breakdown /\ breakdown < breakout.
Proof.
  destruct (build_triggers_shape sup res h4s h4d h1s h1d fv fp fh mv mp mh rh rl)
    as (b & o & E).
  cbv zeta in *. rewrite E. cbn [fst snd].
  pose proof (py_gap_is_min_gap sup res) as G.
  pose proof (min_gap_floor sup res) as G0.
  set (g := py_max2 _ (sup * (15 # 10000))) in *.
  set (bd := py_max2 (sup + g) _).
  destruct (py_max2_lub (sup + g) (py_min2 b (res - 2 * g))) as [L1 _].
  destruct (py_max2_lub (bd + g) (py_min2 o (res - g))) as [L2 _].
  fold bd in L1, L2.
  repeat split; lra.
Qed.

(** In exact arithmetic the unrounded breakout trigger lies below the
    resistance exactly when the band is wider than twice the spacing. *)
Lemma build_triggers_inside_iff_exact
    (sup res h4s h4d h1s h1d fv fp fh mv mp mh rh rl : Q) :
  let t := _build_triggers sup res h4s h4d h1s h1d fv fp fh mv mp mh rh rl in
  snd t < res <-> sup + 2 * min_gap sup res < res.
Proof.
  destruct (build_triggers_shape sup res h4s h4d h1s h1d fv fp fh mv mp mh rh rl)
    as (b & o & E).
  cbv zeta in *. rewrite E. cbn [fst snd].
  pose proof (py_gap_is_min_gap sup res) as G.
  pose proof (min_gap_floor sup res) as G0.
  set (g := py_max2 _ (sup * (15 # 10000))) in *.
  set (bd := py_max2 (sup + g) (py_min2 b (res - 2 * g))).
  pose proof (py_max2_lub (sup + g) (py_min2 b (res - 2 * g))) as [L1 _].
  pose proof (py_max2_lub (bd + g) (py_min2 o (res - g))) as [L2 _].
  pose proof (py_min2_glb b (res - 2 * g)) as [_ M1].
  pose proof (py_min2_glb o (res - g)) as [_ M2].
  fold bd in L1, L2.
  split; intro Hyp.
  - lra.
  - assert (B : bd + g < res).
    { destruct (py_max2_case (sup + g) (py_min2 b (res - 2 * g))) as [C | C];
        fold bd in C; rewrite C; lra. }
    destruct (py_max2_case (bd + g) (py_min2 o (res - g))) as [C | C];
      rewrite C; lra.
Qed.

(** ** Level selection *)

Section Selection.

Variables h4_supply h4_demand h1_supply h1_demand : Q.
Variables weekly_val weekly_poc weekly_vah f24_val f24_poc f24_vah : Q.

Let selected :=
  strength_selection h4_supply h4_demand h1_supply h1_demand
    weekly_val weekly_poc weekly_vah f24_val f24_poc f24_vah.
Let chosen :=
  _choose_daily_levels h4_supply h4_demand h1_supply h1_demand
    weekly_val weekly_poc weekly_vah f24_val f24_poc f24_vah.

(** The safety block never touches the shelf records. *)
Lemma choose_keeps_shelves :
  resistance_shelves chosen = resistance_shelves selected /\
  support_shelves chosen = support_shelves selected.
Proof.
  subst chosen selected. unfold _choose_daily_levels.
  destruct (strength_selection _ _ _ _ _ _ _ _ _ _) as [[[s r] hr] hs].
  destruct (_ >=? _)%py; cbn; auto.
Qed.

(** When the strength-selected levels are inverted or equal, the final
    levels are the lower demand and the higher supply. *)
Lemma choose_fallback :
  resistance_of selected <= support_of selected ->
  support_of chosen == Qmin h4_demand h1_demand /\
  resistance_of chosen == Qmax h4_supply h1_supply.
Proof.
  subst chosen selected. unfold _choose_daily_levels.
  destruct (strength_selection _ _ _ _ _ _ _ _ _ _) as [[[s r] hr] hs].
  cbn [support_of resistance_of]. intros L. at_Q.
  destruct (Qleb_spec r s); [| lra]. cbn.
  split; [apply py_min2_Qmin | apply py_max2_Qmax].
Qed.

(** Otherwise they are the strength-selected levels. *)
Lemma choose_no_fallback :
  support_of selected < resistance_of selected ->
  support_of chosen = support_of selected /\
  resistance_of chosen = resistance_of selected.
Proof.
  subst chosen selected. unfold _choose_daily_levels.
  destruct (strength_selection _ _ _ _ _ _ _ _ _ _) as [[[s r] hr] hs].
  cbn [support_of resistance_of]. intros L. at_Q.
  destruct (Qleb_spec r s); [lra |]. cbn. auto.
Qed.

(** X2.  What the fallback does guarantee: the final levels are ordered as
    soon as the lower demand lies below the higher supply. *)
Lemma choose_ordered :
  Qmin h4_demand h1_demand < Qmax h4_supply h1_supply ->
  support_of chosen < resistance_of chosen.
Proof.
  intros L.
  destruct (Qlt_le_dec (support_of selected) (resistance_of selected)) as [A | A].
  - destruct (choose_no_fallback A) as [-> ->]. exact A.
  - destruct (choose_fallback A) as [E1 E2]. rewrite E1, E2. exact L.
Qed.

End Selection.

(** C2.  Scenario B of the specification, supply shelves (80, 85) below the
    demand shelves (100, 95): the four shelf levels are not all equal, the
    strength-selected pair (100, 80) is inverted, the fallback runs, and the
    pair it returns, support 95 and resistance 85, is still inverted. *)
Theorem choose_daily_levels_inverted_shelves :
  let selected := strength_selection 80 100 85 95 79 90 101 84 90 96 in
  let chosen := _choose_daily_levels 80 100 85 95 79 90 101 84 90 96 in
  support_of selected = 100 /\ resistance_of selected = 80 /\
  support_of chosen = 95 /\ resistance_of chosen = 85 /\
  ~ support_of chosen < resistance_of chosen.
Proof.
  vm_compute. repeat split; discriminate.
Qed.

(** The same call on binary64. *)
Example b64_inverted_shelves :
  let chosen :=
    _choose_daily_levels 80%float 100%float 85%float 95%float
      79%float 90%float 101%float 84%float 90%float 96%float in
  support_of chosen = 95%float /\ resistance_of chosen = 85%float.
Proof. vm_compute. split; reflexivity. Qed.

(** ** The facade *)

(** Scenario B through the whole engine: the inverted pair of the selection
    reaches the result, and both triggers lie above the resistance. *)
Example scenario_B_exact :
  let out := run scenario_B in
  daily_support out == 95 /\ breakdown_trigger out == 951 # 10 /\
  breakout_trigger out == 953 # 10 /\ daily_resistance out == 85.
Proof. vm_compute. repeat split; reflexivity. Qed.

Example b64_scenario_B :
  let out := run (F:=float) (input_of scenario_B) in
  [daily_support out; breakdown_trigger out; breakout_trigger out;
   daily_resistance out]
  = map lit [95; 951 # 10; 953 # 10; 85].
Proof. vm_compute. reflexivity. Qed.

(** C1.  A band of 100 on a price of 50000 (0.2 percent), supply above
    demand: [min_gap] is 75, the final clamp lets its lower bounds win, and
    the breakout trigger returned, 50150, lies above the daily resistance,
    50100. *)
Theorem compute_dm_levels_narrow_band :
  let out := run scenario_narrow in
  daily_support out == 50000 /\ breakdown_trigger out == 50075 /\
  breakout_trigger out == 50150 /\ daily_resistance out == 50100 /\
  ~ breakout_trigger out < daily_resistance out.
Proof.
  vm_compute. repeat split; discriminate.
Qed.

(** The same call on binary64. *)
Example b64_narrow_band :
  let out := run (F:=float) (input_of scenario_narrow) in
  daily_support out = 50000%float /\ breakdown_trigger out = 50075%float /\
  breakout_trigger out = 50150%float /\ daily_resistance out = 50100%float.
Proof. vm_compute. repeat split; reflexivity. Qed.

(** Rounding acts on each field by itself.  Here the band is twenty times
    the spacing and the unrounded values 10.06 < 10.11 < 11.01 < 11.06 are
    in order; support and breakdown trigger are both returned as 10.1. *)
Example rounding_merges_fields :
  let out := run scenario_low_price in
  daily_support out == 101 # 10 /\ breakdown_trigger out == 101 # 10 /\
  breakout_trigger out == 11 /\ daily_resistance out == 111 # 10.
Proof. vm_compute. repeat split; reflexivity. Qed.

Example b64_rounding_merges_fields :
  let out := run (F:=float) (input_of scenario_low_price) in
  [daily_support out; breakdown_trigger out; breakout_trigger out;
   daily_resistance out]
  = map lit [101 # 10; 101 # 10; 11; 111 # 10].
Proof. vm_compute. reflexivity. Qed.

(** ** Alignment *)

(** The minimum of a generator, against the library's [Qmin] folded over any
    list that agrees with it up to [==]. *)
Lemma py_min_fold_Qmin (xs ys : list Q) :
  Forall2 Qeq xs ys ->
  forall x y : Q, x == y -> py_min x xs == fold_left Qmin ys y.
Proof.
  unfold py_min. induction 1 as [| a b xs ys Hab _ IH]; intros x y Hxy; cbn.
  - exact Hxy.
  - apply IH. rewrite py_min2_Qmin. now apply Q.min_compat.
Qed.

Lemma py_min_le_head (xs : list Q) (x : Q) : py_min x xs <= x.
Proof.
  unfold py_min. revert x. induction xs as [| a xs IH]; intros x; cbn.
  - lra.
  - specialize (IH (py_min2 x a)). pose proof (py_min2_glb x a). lra.
Qed.

Lemma py_min_le_In (xs : list Q) (x y : Q) : In y xs -> py_min x xs <= y.
Proof.
  unfold py_min. revert x. induction xs as [| a xs IH]; intros x; cbn.
  - tauto.
  - intros [-> | I].
    + pose proof (py_min_le_head xs (py_min2 x y)) as L. unfold py_min in L.
      pose proof (py_min2_glb x y). lra.
    + now apply IH.
Qed.

Lemma band_comp (m m' : Q) : m == m' -> band m = band m'.
Proof.
  intros E. unfold band.
  destruct (Qlt_le_dec (15 # 10000) m), (Qlt_le_dec (15 # 10000) m');
    try (exfalso; lra);
  destruct (Qlt_le_dec (30 # 10000) m), (Qlt_le_dec (30 # 10000) m');
    try reflexivity; exfalso; lra.
Qed.

Lemma pct_diff_guard (level ref : Q) : _pct_diff level ref = rel_dist_guard level ref.
Proof.
  unfold _pct_diff, rel_dist_guard; at_Q.
  destruct (Qltb_spec (1 # 1000000000) (Qabs ref)),
           (Qlt_le_dec (1 # 1000000000) (Qabs ref));
    try reflexivity; exfalso; lra.
Qed.

(** The denominator of [_pct_diff] is positive: the division is defined. *)
Lemma pct_diff_denominator (ref : Q) :
  0 < (if Qlt_le_dec (1 # 1000000000) (Qabs ref) then Qabs ref else 1).
Proof. destruct (Qlt_le_dec _ _); lra. Qed.

Lemma frvp_alignment_band (level : Q) (role : Role) (wv wp wh fv fp fh : Q) :
  _frvp_alignment level role wv wp wh fv fp fh
  = band (min_pct level role wv wp wh fv fp fh).
Proof.
  unfold _frvp_alignment, band; at_Q.
  set (m := min_pct _ _ _ _ _ _ _ _).
  destruct (Qleb_spec m (15 # 10000)), (Qlt_le_dec (15 # 10000) m);
    try (exfalso; lra); try reflexivity.
  destruct (Qleb_spec m (30 # 10000)), (Qlt_le_dec (30 # 10000) m);
    try (exfalso; lra); reflexivity.
Qed.

Lemma min_pct_least (d : Q -> Q -> Q) (level : Q) (role : Role)
    (wv wp wh fv fp fh : Q) :
  Forall (fun ref => _pct_diff level ref == d level ref)
         (references role wv wp wh fv fp fh) ->
  min_pct level role wv wp wh fv fp fh
  == least (map (d level) (references role wv wp wh fv fp fh)).
Proof.
  unfold min_pct, candidates, references.
  destruct role; cbn [is_resistance map least]; intros A;
    inversion_clear A as [| ? ? A0 A1]; inversion_clear A1 as [| ? ? A1' A2];
    inversion_clear A2 as [| ? ? A2' A3]; inversion_clear A3 as [| ? ? A3' _];
    apply py_min_fold_Qmin; auto.
Qed.

(** C3, as stated, fails: a support level of 0.501 against marks at 0.5 is
    0.2 percent away and scores 1; with the floor of 1 under the reference the
    distance would be 0.001 and the score 2. *)
Lemma frvp_alignment_not_floor :
  _frvp_alignment (501 # 1000) Support (1 # 2) (1 # 2) (1 # 2) (1 # 2) (1 # 2) (1 # 2)
  <> alignment_by rel_dist_floor (501 # 1000) Support
       (1 # 2) (1 # 2) (1 # 2) (1 # 2) (1 # 2) (1 # 2).
Proof. vm_compute. discriminate. Qed.

(** The same call on binary64 scores 1 as well. *)
Example b64_small_price_alignment :
  _frvp_alignment (lit (501 # 1000) : float) Support
    (lit (1 # 2)) (lit (1 # 2)) (lit (1 # 2)) (lit (1 # 2)) (lit (1 # 2)) (lit (1 # 2))
  = 1%Z.
Proof. vm_compute. reflexivity. Qed.

Lemma min_pct_le_reference (level ref : Q) (role : Role) (wv wp wh fv fp fh : Q) :
  In ref (references role wv wp wh fv fp fh) ->
  min_pct level role wv wp wh fv fp fh <= _pct_diff level ref.
Proof.
  unfold min_pct, candidates, references.
  destruct role; cbn [is_resistance]; intros [<- | I];
    try apply py_min_le_head; apply py_min_le_In; now apply in_map.
Qed.

(** X6.  Moving a level towards the reference that realises its least
    relative distance never decreases the score. *)
Lemma frvp_alignment_towards_nearest (level level' ref : Q) (role : Role)
    (wv wp wh fv fp fh : Q) :
  In ref (references role wv wp wh fv fp fh) ->
  _pct_diff level ref == min_pct level role wv wp wh fv fp fh ->
  Qabs (level' - ref) <= Qabs (level - ref) ->
  (_frvp_alignment level role wv wp wh fv fp fh
   <= _frvp_alignment level' role wv wp wh fv fp fh)%Z.
Proof.
  intros I E C.
  pose proof (min_pct_le_reference level' ref role wv wp wh fv fp fh I) as L.
  assert (D : _pct_diff level' ref <= _pct_diff level ref).
  { rewrite !pct_diff_guard. unfold rel_dist_guard, Qdiv.
    apply Qmult_le_compat_r; [exact C |].
    apply Qlt_le_weak, Qinv_lt_0_compat, pct_diff_denominator. }
  rewrite !frvp_alignment_band.
  set (m := min_pct level _ _ _ _ _ _ _) in *.
  set (m' := min_pct level' _ _ _ _ _ _ _) in *.
  assert (M : m' <= m) by lra.
  unfold band.
  destruct (Qlt_le_dec (15 # 10000) m), (Qlt_le_dec (15 # 10000) m');
    try lia; try (exfalso; lra);
  destruct (Qlt_le_dec (30 # 10000) m), (Qlt_le_dec (30 # 10000) m');
    try lia; exfalso; lra.
Qed.

(** The distance of C6 is the relative one.  Measured in price, a level can
    move closer to its nearest mark and lose score: 1997 is 2.999 away from
    the mark 1994.001 and scores 2 through the mark 2000; 1996.999 is 2.998
    away from 1994.001 and scores 1. *)
Remark nearest_in_price_not_monotone :
  let wv := 1994001 # 1000 in
  Qabs ((1996999 # 1000) - wv) < Qabs (1997 - wv) /\
  Qabs (1997 - wv) < Qabs (1997 - 2000) /\
  _frvp_alignment 1997 Support wv 2000 2000 2000 2000 2000 = 2%Z /\
  _frvp_alignment (1996999 # 1000) Support wv 2000 2000 2000 2000 2000 = 1%Z.
Proof. vm_compute. repeat split; reflexivity. Qed.

(** ** Rounding to one decimal *)

Lemma round_half_even_near (q : Q) :
  Qabs (inject_Z (round_half_even q) - q) <= 1 # 2.
Proof.
  unfold round_half_even.
  pose proof (Qfloor_le q) as Lo. pose proof (Qlt_floor q) as Hi.
  rewrite inject_Z_plus in Hi. change (inject_Z 1) with 1 in Hi.
  set (f := Qfloor q) in *.
  destruct (Qcompare (q - inject_Z f) (1 # 2)) eqn:C.
  - apply Qeq_alt in C.
    destruct (Z.even f); [| rewrite inject_Z_plus; change (inject_Z 1) with 1];
      apply Qabs_Qle_condition; split; lra.
  - apply Qlt_alt in C. apply Qabs_Qle_condition; split; lra.
  - apply Qgt_alt in C. rewrite inject_Z_plus. change (inject_Z 1) with 1.
    apply Qabs_Qle_condition; split; lra.
Qed.

Lemma Qround1_tenth (q : Q) : tenth_of q (Qround1 q).
Proof.
  split; [eexists; reflexivity |].
  unfold Qround1. pose proof (round_half_even_near (q * 10)) as N.
  set (n := round_half_even (q * 10)) in *.
  rewrite (Qmake_Qdiv n 10). change (inject_Z (Z.pos 10)) with 10.
  apply Qabs_Qle_condition in N. apply Qabs_Qle_condition.
  unfold Qdiv. change (/ 10) with (1 # 10). split; lra.
Qed.

(** ** Shelf strength *)

Lemma frvp_alignment_range (level : Q) (role : Role) (wv wp wh fv fp fh : Q) :
  let a := _frvp_alignment level role wv wp wh fv fp fh in
  a = 0%Z \/ a = 1%Z \/ a = 2%Z.
Proof.
  unfold _frvp_alignment. repeat destruct (_ <=? _)%py; auto.
Qed.

(** Settles a statement about [_htf_strength] by running the six cases:
    three alignment scores, two timeframes. *)
Ltac six_cases :=
  unfold _htf_strength, strength_unrounded, _frvp_alignment;
  repeat match goal with
  | |- context [(?m <=? ?c)%py] =>
      let b := fresh "b" in
      set (b := (m <=? c)%py); clearbody b; destruct b
  end;
  match goal with tf : Timeframe |- _ => destruct tf end.

(** C4.  The shelf strength is [raw * (10/12)] clamped to [0, 10] and rounded
    to one decimal, with [raw = 3*1 + 2*1 + 2*alignment + tag], [tag = 1] for
    FourHour and 0 for OneHour; it lies in [0, 10] and is a whole number of
    tenths. *)
Theorem htf_strength_reference (level : Q) (tf : Timeframe) (role : Role)
    (weekly_val weekly_poc weekly_vah f24_val f24_poc f24_vah : Q) :
  let s := _htf_strength level tf role
             weekly_val weekly_poc weekly_vah f24_val f24_poc f24_vah in
  let a := _frvp_alignment level role
             weekly_val weekly_poc weekly_vah f24_val f24_poc f24_vah in
  s = strength_reference a tf /\
  0 <= s /\ s <= 10 /\
  exists n : Z, s = n # 10.
Proof.
  cbv zeta. six_cases;
    (split; [vm_compute; reflexivity |]);
    (split; [vm_compute; discriminate |]);
    (split; [vm_compute; discriminate |]);
    eexists; vm_compute; reflexivity.
Qed.

(** C10.  With [touches = 1] and [volume_rating = 1] the strength is one of
    4.2, 5.0, 5.8, 6.7, 7.5, 8.3, from [raw] in 5..10; it lies in [4.2, 8.3],
    and the clamp to [0, 10] is not active: the clamped value is
    [raw * (10/12)] itself, strictly between 0 and 10. *)
Theorem htf_strength_six_values (level : Q) (tf : Timeframe) (role : Role)
    (weekly_val weekly_poc weekly_vah f24_val f24_poc f24_vah : Q) :
  let s := _htf_strength level tf role
             weekly_val weekly_poc weekly_vah f24_val f24_poc f24_vah in
  let raw := raw_strength
               (_frvp_alignment level role
                  weekly_val weekly_poc weekly_vah f24_val f24_poc f24_vah) tf in
  In s [42 # 10; 50 # 10; 58 # 10; 67 # 10; 75 # 10; 83 # 10] /\
  (5 <= raw <= 10)%Z /\
  42 # 10 <= s /\ s <= 83 # 10 /\
  strength_unrounded level tf role
    weekly_val weekly_poc weekly_vah f24_val f24_poc f24_vah
  = inject_Z raw * (10 / 12) /\
  0 < inject_Z raw * (10 / 12) /\ inject_Z raw * (10 / 12) < 10.
Proof.
  cbv zeta. six_cases;
    (split; [vm_compute; tauto |]);
    (split; [vm_compute; split; discriminate |]);
    (split; [vm_compute; discriminate |]);
    (split; [vm_compute; discriminate |]);
    (split; [vm_compute; reflexivity |]);
    split; vm_compute; reflexivity.
Qed.

(** Each of the six values is reached: at a mark (score 2), 0.2 percent off
    (score 1) and 1 percent off (score 0), on either timeframe. *)
Example htf_strength_values_reached :
  map (fun '(l, t) => _htf_strength l t Support 100 100 100 100 100 100)
      [(101, OneHour); (101, FourHour); (1002 # 10, OneHour);
       (1002 # 10, FourHour); (100, OneHour); (100, FourHour)]
  = [42 # 10; 50 # 10; 58 # 10; 67 # 10; 75 # 10; 83 # 10].
Proof. vm_compute. reflexivity. Qed.

(** On binary64 the six values are the doubles nearest to these decimals. *)
Example b64_strength_values :
  map (fun '(l, t) =>
         _htf_strength (lit l : float) t Support
           100%float 100%float 100%float 100%float 100%float 100%float)
      [(101, OneHour); (101, FourHour); (1002 # 10, OneHour);
       (1002 # 10, FourHour); (100, OneHour); (100, FourHour)]
  = map lit [42 # 10; 50 # 10; 58 # 10; 67 # 10; 75 # 10; 83 # 10].
Proof. vm_compute. reflexivity. Qed.

(** X5.  A FourHour strength comes from an even [raw] and a OneHour strength
    from an odd one: with the placeholder factors the two never tie. *)
Remark strengths_never_tie (l4 l1 : Q) (role : Role) (wv wp wh fv fp fh : Q) :
  ~ _htf_strength l4 FourHour role wv wp wh fv fp fh
    == _htf_strength l1 OneHour role wv wp wh fv fp fh.
Proof.
  unfold _htf_strength, strength_unrounded, _frvp_alignment.
  repeat match goal with
  | |- context [(?m <=? ?c)%py] =>
      let b := fresh "b" in
      set (b := (m <=? c)%py); clearbody b; destruct b
  end; vm_compute; discriminate.
Qed.

(** ** Primary shelves *)

Lemma pick_primary_ge (s4h s1h h4_level h1_level : Q) :
  s1h <= s4h -> pick_primary s4h s1h h4_level h1_level = (h4_level, FourHour).
Proof.
  intros L. unfold pick_primary; at_Q. destruct (Qleb_spec s1h s4h); [reflexivity | lra].
Qed.

(** C5.  For every input and on each role's side, the two shelves returned
    are the FourHour and the OneHour shelf in this order, exactly one of them
    is primary, and the primary one and the daily level before the safety
    block are those picked from the two strengths by [>=]; and whenever the
    two strengths are equal, the pick is the FourHour shelf and its level. *)
Theorem primary_shelf_selection :
  (forall (h4_supply h4_demand h1_supply h1_demand
           weekly_val weekly_poc weekly_vah f24_val f24_poc f24_vah : Q)
          (role : Role),
     let selected :=
       strength_selection h4_supply h4_demand h1_supply h1_demand
         weekly_val weekly_poc weekly_vah f24_val f24_poc f24_vah in
     let chosen :=
       _choose_daily_levels h4_supply h4_demand h1_supply h1_demand
         weekly_val weekly_poc weekly_vah f24_val f24_poc f24_vah in
     exists a b : Shelf Q,
       shelves_of role chosen = [a; b] /\
       tf a = FourHour /\ tf b = OneHour /\
       level a = (if is_resistance role then h4_supply else h4_demand) /\
       level b = (if is_resistance role then h1_supply else h1_demand) /\
       strength a = _htf_strength (level a) FourHour role
                      weekly_val weekly_poc weekly_vah f24_val f24_poc f24_vah /\
       strength b = _htf_strength (level b) OneHour role
                      weekly_val weekly_poc weekly_vah f24_val f24_poc f24_vah /\
       exactly_one_primary [a; b] /\
       pick_primary (strength a) (strength b) (level a) (level b)
       = (level_of role selected, if primary a then FourHour else OneHour))
  /\
  (forall s4h s1h h4_level h1_level : Q,
     s4h == s1h ->
     pick_primary s4h s1h h4_level h1_level = (h4_level, FourHour)).
Proof.
  split.
  - intros. 
    destruct (choose_keeps_shelves h4_supply h4_demand h1_supply h1_demand
                weekly_val weekly_poc weekly_vah f24_val f24_poc f24_vah) as [KR KS].
    fold chosen selected in KR, KS.
    assert (K : shelves_of role chosen = shelves_of role selected)
      by (destruct role; assumption).
    rewrite K. clear K KR KS. subst selected. clear chosen.
    unfold strength_selection, pick_primary.
    destruct role;
      repeat match goal with
      | |- context [(?x >=? ?y)%py] =>
          let c := fresh "c" in
          destruct (x >=? y)%py eqn:c
      end;
      cbn [shelves_of level_of resistance_shelves support_shelves
           resistance_of support_of];
      do 2 eexists; (split; [reflexivity |]);
      cbn [tf level strength primary tf_eqb is_resistance];
      repeat match goal with
      | c : (_ >=? _)%py = _ |- _ => rewrite c
      end;
      repeat split.
  - intros s4h s1h l4 l1 E. apply pick_primary_ge. lra.
Qed.

Lemma primary_shelf_selection_tie :
  pick_primary 5 5 90 92 = (90, FourHour).
Proof.
  apply (proj2 primary_shelf_selection). reflexivity.
Defined.

(** ** Rounded outputs *)

Lemma rounded_to_tenth_round (u : Q) : rounded_to_tenth u (Qround1 u).
Proof. split; [reflexivity | apply Qround1_tenth]. Qed.

(** C7.  The four scalar fields of the result are the unrounded values of
    the selection and of the trigger builder rounded to one decimal, and the
    strength of every shelf returned is its unrounded strength rounded to one
    decimal; 8.333... rounds to 8.3. *)
Theorem outputs_rounded_to_one_decimal
    (h4_supply h4_demand h1_supply h1_demand
     weekly_val weekly_poc weekly_vah f24_val f24_poc f24_vah
     morn_val morn_poc morn_vah r30_high r30_low : Q) :
  let chosen :=
    _choose_daily_levels h4_supply h4_demand h1_supply h1_demand
      weekly_val weekly_poc weekly_vah f24_val f24_poc f24_vah in
  let triggers :=
    _build_triggers (support_of chosen) (resistance_of chosen)
      h4_supply h4_demand h1_supply h1_demand
      f24_val f24_poc f24_vah morn_val morn_poc morn_vah r30_high r30_low in
  let out :=
    compute_dm_levels h4_supply h4_demand h1_supply h1_demand
      weekly_val weekly_poc weekly_vah f24_val f24_poc f24_vah
      morn_val morn_poc morn_vah r30_high r30_low in
  let unrounded (role : Role) (sh : Shelf Q) :=
    strength_unrounded (level sh) (tf sh) role
      weekly_val weekly_poc weekly_vah f24_val f24_poc f24_vah in
  rounded_to_tenth (support_of chosen) (daily_support out) /\
  rounded_to_tenth (resistance_of chosen) (daily_resistance out) /\
  rounded_to_tenth (snd triggers) (breakout_trigger out) /\
  rounded_to_tenth (fst triggers) (breakdown_trigger out) /\
  Forall (fun sh => rounded_to_tenth (unrounded Resistance sh) (strength sh))
         (htf_resistance out) /\
  Forall (fun sh => rounded_to_tenth (unrounded Support sh) (strength sh))
         (htf_support out) /\
  Qround1 (10 * (10 / 12)) = 83 # 10.
Proof.
  intros chosen triggers out unrounded.
  destruct (choose_keeps_shelves h4_supply h4_demand h1_supply h1_demand
              weekly_val weekly_poc weekly_vah f24_val f24_poc f24_vah) as [KR KS].
  fold chosen in KR, KS.
  assert (OR : htf_resistance out = resistance_shelves chosen
               /\ htf_support out = support_shelves chosen
               /\ daily_support out = Qround1 (support_of chosen)
               /\ daily_resistance out = Qround1 (resistance_of chosen)
               /\ breakout_trigger out = Qround1 (snd triggers)
               /\ breakdown_trigger out = Qround1 (fst triggers)).
  { subst out triggers. unfold compute_dm_levels. fold chosen.
    destruct chosen as [[[s r] hr] hs]. cbn [support_of resistance_of].
    destruct (_build_triggers _ _ _ _ _ _ _ _ _ _ _ _ _ _) as [bd bo].
    cbn. repeat split. }
  destruct OR as (E1 & E2 & E3 & E4 & E5 & E6).
  rewrite E1, E2, E3, E4, E5, E6, KR, KS.
  repeat (split; [apply rounded_to_tenth_round |]).
  split; [| split; [| reflexivity]].
  - unfold strength_selection. 
    destruct (pick_primary _ _ h4_demand h1_demand), (pick_primary _ _ h4_supply h1_supply).
    cbn [resistance_shelves]. repeat constructor; apply Qround1_tenth.
  - unfold strength_selection.
    destruct (pick_primary _ _ h4_demand h1_demand), (pick_primary _ _ h4_supply h1_supply).
    cbn [support_shelves]. repeat constructor; apply Qround1_tenth.
Qed.

(** ** Scenario A of the specification *)

Example scenario_A_exact :
  let out := run scenario_A in
  daily_support out == 90 /\ breakdown_trigger out == 91 /\
  breakout_trigger out == 109 /\ daily_resistance out == 110.
Proof. vm_compute. repeat split; reflexivity. Qed.

Example b64_scenario_A :
  let out := run (F:=float) (input_of scenario_A) in
  daily_support out = 90%float /\ breakdown_trigger out = 91%float /\
  breakout_trigger out = 109%float /\ daily_resistance out = 110%float.
Proof. vm_compute. repeat split; reflexivity. Qed.

(** ** Binary64 *)

(** X14.  The six-value property does not depend on exact arithmetic:
    whatever doubles the engine is given, the strength it returns is one of
    six doubles, those nearest to 4.2, 5.0, 5.8, 6.7, 7.5 and 8.3. *)
Remark b64_strength_six_values (level : float) (tf : Timeframe) (role : Role)
    (weekly_val weekly_poc weekly_vah f24_val f24_poc f24_vah : float) :
  In (_htf_strength level tf role
        weekly_val weekly_poc weekly_vah f24_val f24_poc f24_vah)
     (map lit [42 # 10; 50 # 10; 58 # 10; 67 # 10; 75 # 10; 83 # 10]).
Proof. six_cases; vm_compute; tauto. Qed.

(** [B64.round1] on doubles whose decimal expansion looks like a tie: 0.15,
    0.35 lie below the tie and 0.45 above it, 0.25 is a tie and goes to the
    even digit. *)
Example b64_round1_ties :
  map (fun q => B64.round1 (B64.of_Q q))
      [15 # 100; 25 # 100; 35 # 100; 45 # 100; 100 # 12; - 25 # 100]
  = map B64.of_Q [1 # 10; 2 # 10; 3 # 10; 5 # 10; 83 # 10; - 2 # 10].
Proof. vm_compute. reflexivity. Qed.

(** * Further properties of the engine *)

(** ** Extrema of several arguments *)

Lemma py_max_ge_head (xs : list Q) (x : Q) : x <= py_max x xs.
Proof.
  unfold py_max. revert x. induction xs as [| a xs IH]; intros x; cbn.
  - lra.
  - specialize (IH (py_max2 x a)). pose proof (py_max2_lub x a). lra.
Qed.

Lemma py_max_ge_In (xs : list Q) (x y : Q) : In y xs -> y <= py_max x xs.
Proof.
  unfold py_max. revert x. induction xs as [| a xs IH]; intros x; cbn.
  - tauto.
  - intros [-> | I].
    + pose proof (py_max_ge_head xs (py_max2 x y)) as L. unfold py_max in L.
      pose proof (py_max2_lub x y). lra.
    + now apply IH.
Qed.

Lemma py_min_attained (xs : list Q) (x : Q) : In (py_min x xs) (x :: xs).
Proof.
  unfold py_min. revert x. induction xs as [| a xs IH]; intros x; cbn.
  - auto.
  - destruct (IH (py_min2 x a)) as [E | I].
    + rewrite <- E. destruct (py_min2_case x a) as [-> | ->]; auto.
    + auto.
Qed.

(** ** Rounding keeps the order *)

Lemma round_half_even_comp (q q' : Q) :
  q == q' -> round_half_even q = round_half_even q'.
Proof.
  intros E. unfold round_half_even.
  assert (Fl : Qfloor q = Qfloor q') by now rewrite E.
  rewrite <- Fl.
  assert (C : Qcompare (q - inject_Z (Qfloor q)) (1 # 2)
              = Qcompare (q' - inject_Z (Qfloor q)) (1 # 2)).
  { apply Qcompare_comp; [| reflexivity].
    unfold Qminus. apply Qplus_comp; [exact E | reflexivity]. }
  now rewrite C.
Qed.

Lemma Qround1_comp (q q' : Q) : q == q' -> Qround1 q = Qround1 q'.
Proof.
  intros E. unfold Qround1. f_equal. apply round_half_even_comp. now rewrite E.
Qed.

Lemma round_half_even_le (a b : Q) :
  a <= b -> (round_half_even a <= round_half_even b)%Z.
Proof.
  intros L.
  pose proof (round_half_even_near a) as Na.
  pose proof (round_half_even_near b) as Nb.
  apply Qabs_Qle_condition in Na. apply Qabs_Qle_condition in Nb.
  destruct (Z_le_gt_dec (round_half_even a) (round_half_even b)) as [| G];
    [assumption | exfalso].
  assert (G' : (round_half_even b + 1 <= round_half_even a)%Z) by lia.
  rewrite Zle_Qle, inject_Z_plus in G'. change (inject_Z 1) with 1 in G'.
  assert (E : a == b) by (apply Qle_antisym; lra).
  apply round_half_even_comp in E. lia.
Qed.

Lemma round_half_even_lt (a b : Q) :
  a + 1 < b -> (round_half_even a < round_half_even b)%Z.
Proof.
  intros L.
  pose proof (round_half_even_near a) as Na.
  pose proof (round_half_even_near b) as Nb.
  apply Qabs_Qle_condition in Na. apply Qabs_Qle_condition in Nb.
  rewrite Zlt_Qlt. lra.
Qed.

Lemma Qround1_le (a b : Q) : a <= b -> Qround1 a <= Qround1 b.
Proof.
  intros L. unfold Qround1, Qle. cbn.
  apply Z.mul_le_mono_nonneg_r; [lia |].
  apply round_half_even_le. lra.
Qed.

Lemma Qround1_lt (a b : Q) : a + (1 # 10) < b -> Qround1 a < Qround1 b.
Proof.
  intros L. unfold Qround1, Qlt. cbn.
  apply Z.mul_lt_mono_pos_r; [lia |].
  apply round_half_even_lt. lra.
Qed.

(** ** Triggers in the facade *)

(** Splits on the outcome of every two-argument extremum of the goal. *)
Ltac py_case_max a b :=
  let L := fresh "L" in
  let C := fresh "C" in
  let x := fresh "x" in
  pose proof (py_max2_lub a b) as L;
  pose proof (py_max2_case a b) as C;
  set (x := py_max2 a b) in *; clearbody x;
  destruct C as [C | C]; subst x.

Ltac py_case_min a b :=
  let L := fresh "L" in
  let C := fresh "C" in
  let x := fresh "x" in
  pose proof (py_min2_glb a b) as L;
  pose proof (py_min2_case a b) as C;
  set (x := py_min2 a b) in *; clearbody x;
  destruct C as [C | C]; subst x.

Ltac py_cases :=
  repeat match goal with
  | |- context [py_max2 ?a ?b] => py_case_max a b
  | |- context [py_min2 ?a ?b] => py_case_min a b
  | _ : context [py_max2 ?a ?b] |- _ => py_case_max a b
  | _ : context [py_min2 ?a ?b] |- _ => py_case_min a b
  end.

(** When the breakdown candidate is not above the support and the breakout
    candidate not below the resistance, both are pushed off the edges and the
    pair returned depends on the band only. *)
Lemma build_triggers_pushed
    (sup res h4s h4d h1s h1d fv fp fh mv mp mh rh rl : Q) :
  py_min h1d [h4d; fv; fp; mv; rl] <= sup ->
  res <= py_max h1s [h4s; fh; fp; mh; rh] ->
  let t := _build_triggers sup res h4s h4d h1s h1d fv fp fh mv mp mh rh rl in
  let g := min_gap sup res in
  fst t == sup + g /\
  snd t == Qmax (sup + 2 * g) (res - g).
Proof.
  intros Hd Hu. cbv zeta.
  pose proof (py_gap_is_min_gap sup res) as G.
  pose proof (min_gap_floor sup res) as G0.
  unfold _build_triggers. at_Q.
  set (g := py_max2 _ (sup * (15 # 10000))) in *.
  set (cd := py_min h1d _) in *. set (cu := py_max h1s _) in *.
  rewrite <- G. clearbody g cd cu.
  destruct (Q.max_spec (sup + 2 * g) (res - g)) as [[? M] | [? M]]; rewrite M;
    (destruct (Qleb_spec cd (sup + g)); [| exfalso; lra]);
    (destruct (Qleb_spec (res - g) cu); [| exfalso; lra]);
    cbv iota;
    (destruct (Qleb_spec (res - g) (sup + g + g)); cbv iota beta; cbn [fst snd]);
    py_cases; split; lra.
Qed.

Lemma choose_levels_cases
    (h4s h4d h1s h1d wv wp wh fv fp fh : Q) :
  let chosen := _choose_daily_levels h4s h4d h1s h1d wv wp wh fv fp fh in
  (support_of chosen = h4d \/ support_of chosen = h1d) /\
  (resistance_of chosen = h4s \/ resistance_of chosen = h1s).
Proof.
  cbv zeta. unfold _choose_daily_levels, strength_selection, pick_primary.
  repeat match goal with
  | |- context [(?x >=? ?y)%py] => destruct (x >=? y)%py
  end; cbn [support_of resistance_of];
  try (destruct (py_min2_case h4d h1d) as [-> | ->]);
  try (destruct (py_max2_case h4s h1s) as [-> | ->]); auto.
Qed.

Section Facade.

Variables h4_supply h4_demand h1_supply h1_demand : Q.
Variables weekly_val weekly_poc weekly_vah f24_val f24_poc f24_vah : Q.

Let chosen :=
  _choose_daily_levels h4_supply h4_demand h1_supply h1_demand
    weekly_val weekly_poc weekly_vah f24_val f24_poc f24_vah.
Let support := support_of chosen.
Let resistance := resistance_of chosen.

(** The result, field by field. *)
Lemma compute_dm_levels_fields (morn_val morn_poc morn_vah r30_high r30_low : Q) :
  let t := _build_triggers support resistance
             h4_supply h4_demand h1_supply h1_demand
             f24_val f24_poc f24_vah morn_val morn_poc morn_vah r30_high r30_low in
  compute_dm_levels h4_supply h4_demand h1_supply h1_demand
    weekly_val weekly_poc weekly_vah f24_val f24_poc f24_vah
    morn_val morn_poc morn_vah r30_high r30_low
  = mkDmLevels (Qround1 support) (Qround1 resistance)
      (Qround1 (snd t)) (Qround1 (fst t))
      (resistance_shelves chosen) (support_shelves chosen).
Proof.
  subst support resistance. unfold compute_dm_levels. fold chosen.
  destruct chosen as [[[s r] hr] hs]. cbn [support_of resistance_of].
  destruct (_build_triggers _ _ _ _ _ _ _ _ _ _ _ _ _ _) as [bd bo].
  reflexivity.
Qed.

(** In the facade the breakdown candidate is never above the support chosen
    and the breakout candidate never below the resistance chosen: both
    shelf levels of a side are among the arguments of the [min] and of the
    [max], and the level chosen is one of the two. *)
Lemma facade_candidates (morn_val morn_vah r30_high r30_low : Q) :
  py_min h1_demand [h4_demand; f24_val; f24_poc; morn_val; r30_low] <= support /\
  resistance <= py_max h1_supply [h4_supply; f24_vah; f24_poc; morn_vah; r30_high].
Proof.
  subst support resistance.
  destruct (choose_levels_cases h4_supply h4_demand h1_supply h1_demand
              weekly_val weekly_poc weekly_vah f24_val f24_poc f24_vah)
    as [[S | S] [R | R]]; fold chosen in S, R; rewrite S, R; split;
    try apply py_min_le_head; try apply py_max_ge_head;
    try (apply py_min_le_In; cbn; tauto); apply py_max_ge_In; cbn; tauto.
Qed.

Lemma facade_triggers (morn_val morn_poc morn_vah r30_high r30_low : Q) :
  let t := _build_triggers support resistance
             h4_supply h4_demand h1_supply h1_demand
             f24_val f24_poc f24_vah morn_val morn_poc morn_vah r30_high r30_low in
  let g := min_gap support resistance in
  fst t == support + g /\
  snd t == Qmax (support + 2 * g) (resistance - g).
Proof.
  destruct (facade_candidates morn_val morn_vah r30_high r30_low) as [Hd Hu].
  apply build_triggers_pushed; assumption.
Qed.

(** X9.  The morning marks and the opening range never reach the result:
    two calls that differ only in [morn_val], [morn_poc], [morn_vah],
    [r30_high], [r30_low] return the same dictionary. *)
Theorem compute_dm_levels_ignores_morning_and_range
    (morn_val morn_poc morn_vah r30_high r30_low
     morn_val' morn_poc' morn_vah' r30_high' r30_low' : Q) :
  compute_dm_levels h4_supply h4_demand h1_supply h1_demand
    weekly_val weekly_poc weekly_vah f24_val f24_poc f24_vah
    morn_val morn_poc morn_vah r30_high r30_low
  = compute_dm_levels h4_supply h4_demand h1_supply h1_demand
      weekly_val weekly_poc weekly_vah f24_val f24_poc f24_vah
      morn_val' morn_poc' morn_vah' r30_high' r30_low'.
Proof.
  rewrite !compute_dm_levels_fields.
  destruct (facade_triggers morn_val morn_poc morn_vah r30_high r30_low) as [E1 E2].
  destruct (facade_triggers morn_val' morn_poc' morn_vah' r30_high' r30_low')
    as [E1' E2'].
  f_equal; apply Qround1_comp.
  - now rewrite E2, E2'.
  - now rewrite E1, E1'.
Qed.

(** X10.  The fields returned are never out of order on the lower side:
    [daily_support <= breakdown_trigger <= breakout_trigger], for every
    input. *)
Theorem compute_dm_levels_lower_order
    (morn_val morn_poc morn_vah r30_high r30_low : Q) :
  let out :=
    compute_dm_levels h4_supply h4_demand h1_supply h1_demand
      weekly_val weekly_poc weekly_vah f24_val f24_poc f24_vah
      morn_val morn_poc morn_vah r30_high r30_low in
  daily_support out <= breakdown_trigger out /\
  breakdown_trigger out <= breakout_trigger out.
Proof.
  cbv zeta. rewrite compute_dm_levels_fields.
  cbn [daily_support breakdown_trigger breakout_trigger].
  destruct (facade_triggers morn_val morn_poc morn_vah r30_high r30_low) as [E1 E2].
  cbv zeta in E1, E2.
  pose proof (min_gap_floor support resistance) as G.
  pose proof (Q.le_max_l (support + 2 * min_gap support resistance)
                (resistance - min_gap support resistance)) as M.
  split; apply Qround1_le; lra.
Qed.

End Facade.

(** ** More on level selection *)

(** X3.  The daily levels are always shelf levels: the support returned is
    one of the two demand levels and the resistance returned one of the two
    supply levels, with or without the fallback. *)
Theorem choose_daily_levels_from_shelves
    (h4_supply h4_demand h1_supply h1_demand
     weekly_val weekly_poc weekly_vah f24_val f24_poc f24_vah : Q) :
  let chosen :=
    _choose_daily_levels h4_supply h4_demand h1_supply h1_demand
      weekly_val weekly_poc weekly_vah f24_val f24_poc f24_vah in
  In (support_of chosen) [h4_demand; h1_demand] /\
  In (resistance_of chosen) [h4_supply; h1_supply].
Proof.
  destruct (choose_levels_cases h4_supply h4_demand h1_supply h1_demand
              weekly_val weekly_poc weekly_vah f24_val f24_poc f24_vah)
    as [[S | S] [R | R]]; cbv zeta; rewrite S, R; cbn; auto.
Qed.

(** X4.  The choice of the primary shelf is a comparison of alignment
    scores: the FourHour shelf is picked when its score is at least that of
    the OneHour shelf, and the OneHour shelf only when it is strictly better
    aligned. *)
Theorem four_hour_primary_iff_alignment (h4_level h1_level : Q) (role : Role)
    (weekly_val weekly_poc weekly_vah f24_val f24_poc f24_vah : Q) :
  let a4 := _frvp_alignment h4_level role
              weekly_val weekly_poc weekly_vah f24_val f24_poc f24_vah in
  let a1 := _frvp_alignment h1_level role
              weekly_val weekly_poc weekly_vah f24_val f24_poc f24_vah in
  pick_primary
    (_htf_strength h4_level FourHour role
       weekly_val weekly_poc weekly_vah f24_val f24_poc f24_vah)
    (_htf_strength h1_level OneHour role
       weekly_val weekly_poc weekly_vah f24_val f24_poc f24_vah)
    h4_level h1_level
  = if (a1 <=? a4)%Z then (h4_level, FourHour) else (h1_level, OneHour).
Proof.
  cbv zeta. unfold _htf_strength, strength_unrounded, _frvp_alignment.
  repeat match goal with
  | |- context [(?m <=? ?c)%py] =>
      let b := fresh "b" in
      set (b := (m <=? c)%py); clearbody b; destruct b
  end; vm_compute; reflexivity.
Qed.

(** Without the fallback each daily level is the level of the primary shelf
    of its side. *)
Lemma selection_primary_levels
    (h4s h4d h1s h1d wv wp wh fv fp fh : Q) :
  let selected := strength_selection h4s h4d h1s h1d wv wp wh fv fp fh in
  (exists a, In a (support_shelves selected) /\ primary a = true /\
             level a = support_of selected) /\
  (exists b, In b (resistance_shelves selected) /\ primary b = true /\
             level b = resistance_of selected).
Proof.
  cbv zeta. unfold strength_selection, pick_primary.
  repeat match goal with
  | |- context [(?x >=? ?y)%py] => destruct (x >=? y)%py
  end; cbn [support_shelves resistance_shelves support_of resistance_of tf_eqb];
  split;
  first
    [ solve [eexists; split; [cbn; left; reflexivity | cbn; split; reflexivity]]
    | solve [eexists; split;
             [cbn; right; left; reflexivity | cbn; split; reflexivity]] ].
Qed.

(** X15.  When the strength-selected pair is in order, so that the fallback
    does not run, the daily support returned is the level of the primary
    support shelf returned and the daily resistance the level of the primary
    resistance shelf. *)
Theorem daily_levels_of_primary_shelves
    (h4_supply h4_demand h1_supply h1_demand
     weekly_val weekly_poc weekly_vah f24_val f24_poc f24_vah : Q) :
  let selected :=
    strength_selection h4_supply h4_demand h1_supply h1_demand
      weekly_val weekly_poc weekly_vah f24_val f24_poc f24_vah in
  let chosen :=
    _choose_daily_levels h4_supply h4_demand h1_supply h1_demand
      weekly_val weekly_poc weekly_vah f24_val f24_poc f24_vah in
  support_of selected < resistance_of selected ->
  (exists a, In a (support_shelves chosen) /\ primary a = true /\
             level a = support_of chosen) /\
  (exists b, In b (resistance_shelves chosen) /\ primary b = true /\
             level b = resistance_of chosen).
Proof.
  intros selected chosen L.
  destruct (choose_keeps_shelves h4_supply h4_demand h1_supply h1_demand
              weekly_val weekly_poc weekly_vah f24_val f24_poc f24_vah) as [KR KS].
  destruct (choose_no_fallback h4_supply h4_demand h1_supply h1_demand
              weekly_val weekly_poc weekly_vah f24_val f24_poc f24_vah L) as [ES ER].
  fold chosen selected in KR, KS, ES, ER. rewrite KR, KS, ES, ER.
  apply selection_primary_levels.
Qed.

Lemma daily_levels_of_primary_shelves_witness :
  let chosen := _choose_daily_levels 110 90 108 92 89 95 109 91 96 107 in
  (exists a, In a (support_shelves chosen) /\ primary a = true /\
             level a = support_of chosen) /\
  (exists b, In b (resistance_shelves chosen) /\ primary b = true /\
             level b = resistance_of chosen).
Proof.
  apply daily_levels_of_primary_shelves. vm_compute. reflexivity.
Defined.

(** With the fallback the levels returned need not be those of the primary
    shelves: here both primary shelves are the FourHour ones, at 100 and 95,
    and the levels returned are the OneHour ones, 90 and 110. *)
Example fallback_returns_secondary_levels :
  let chosen := _choose_daily_levels 95 100 110 90 50 50 50 50 50 50 in
  support_of chosen = 90 /\ resistance_of chosen = 110 /\
  map primary (support_shelves chosen) = [true; false] /\
  map primary (resistance_shelves chosen) = [true; false].
Proof. vm_compute. repeat split; reflexivity. Qed.

Lemma choose_ordered_witness :
  let chosen := _choose_daily_levels 95 100 110 90 50 50 50 50 50 50 in
  support_of chosen < resistance_of chosen.
Proof.
  apply choose_ordered. vm_compute. reflexivity.
Defined.

(** ** More on alignment *)

Lemma frvp_alignment_towards_nearest_witness :
  Z.le (_frvp_alignment (1002 # 10) Support 100 100 100 100 100 100)
       (_frvp_alignment (1001 # 10) Support 100 100 100 100 100 100).
Proof.
  apply (frvp_alignment_towards_nearest (1002 # 10) (1001 # 10) 100);
    [cbn; auto | vm_compute; reflexivity | vm_compute; discriminate].
Defined.

(** X13.  The relative difference is never negative, and it is zero exactly
    when the level sits on the reference. *)
Theorem pct_diff_zero_iff (a b : Q) :
  0 <= _pct_diff a b /\ (_pct_diff a b == 0 <-> a == b).
Proof.
  rewrite pct_diff_guard. unfold rel_dist_guard.
  pose proof (pct_diff_denominator b) as D.
  set (d := if Qlt_le_dec (1 # 1000000000) (Qabs b) then Qabs b else 1) in *.
  pose proof (Qabs_nonneg (a - b)) as N.
  assert (I : 0 < / d) by now apply Qinv_lt_0_compat.
  unfold Qdiv. split.
  - apply Qmult_le_0_compat; lra.
  - split; intros E.
    + apply Qmult_integral in E. destruct E as [E | E]; [| lra].
      assert (Z : Qabs (a - b) <= 0) by lra.
      apply Qabs_Qle_condition in Z. lra.
    + assert (Z : a - b == 0) by lra. rewrite Z. reflexivity.
Qed.

(** The least relative distance is at most [c] exactly when some reference
    of the role is within [c]. *)
Lemma min_pct_le_iff (c level : Q) (role : Role) (wv wp wh fv fp fh : Q) :
  min_pct level role wv wp wh fv fp fh <= c <->
  exists ref, In ref (references role wv wp wh fv fp fh) /\ _pct_diff level ref <= c.
Proof.
  split.
  - intros L. unfold min_pct, candidates, references in *.
    destruct role; cbn [is_resistance] in *;
      match type of L with
      | py_min ?x ?xs <= _ =>
          destruct (py_min_attained xs x) as [E | I]
      end;
      try (eexists; split; [left; reflexivity | rewrite E; exact L]);
      cbn [map In] in I;
      destruct I as [E | [E | [E | []]]];
      eexists; (split; [| rewrite E; exact L]); cbn; tauto.
  - intros (ref & I & L).
    pose proof (min_pct_le_reference level ref role wv wp wh fv fp fh I). lra.
Qed.

(** X7.  The score is 2 exactly when the level is within 0.15 percent of
    one of the four references of its role, and at least 1 exactly when it is
    within 0.30 percent of one of them. *)
Theorem frvp_alignment_iff_within (level : Q) (role : Role)
    (weekly_val weekly_poc weekly_vah f24_val f24_poc f24_vah : Q) :
  let score := _frvp_alignment level role
                 weekly_val weekly_poc weekly_vah f24_val f24_poc f24_vah in
  let refs := references role
                weekly_val weekly_poc weekly_vah f24_val f24_poc f24_vah in
  (score = 2%Z <->
   exists ref, In ref refs /\ _pct_diff level ref <= 15 # 10000) /\
  ((1 <= score)%Z <->
   exists ref, In ref refs /\ _pct_diff level ref <= 30 # 10000).
Proof.
  cbv zeta. rewrite <- !min_pct_le_iff. rewrite frvp_alignment_band. unfold band.
  set (m := min_pct _ _ _ _ _ _ _ _).
  destruct (Qlt_le_dec (15 # 10000) m); [destruct (Qlt_le_dec (30 # 10000) m) |];
    split; split; intros A; try lia; try lra; try discriminate; reflexivity.
Qed.

(** ** The safety block and the band *)

(** X16.  The safety block can only widen the band: the support returned is
    never above the strength-selected support and the resistance returned
    never below the strength-selected resistance. *)
Theorem choose_daily_levels_widens
    (h4_supply h4_demand h1_supply h1_demand
     weekly_val weekly_poc weekly_vah f24_val f24_poc f24_vah : Q) :
  let selected :=
    strength_selection h4_supply h4_demand h1_supply h1_demand
      weekly_val weekly_poc weekly_vah f24_val f24_poc f24_vah in
  let chosen :=
    _choose_daily_levels h4_supply h4_demand h1_supply h1_demand
      weekly_val weekly_poc weekly_vah f24_val f24_poc f24_vah in
  support_of chosen <= support_of selected /\
  resistance_of selected <= resistance_of chosen.
Proof.
  cbv zeta. unfold _choose_daily_levels, strength_selection, pick_primary.
  repeat match goal with
  | |- context [(?x >=? ?y)%py] => destruct (x >=? y)%py
  end; cbn [support_of resistance_of];
  pose proof (py_min2_glb h4_demand h1_demand);
  pose proof (py_max2_lub h4_supply h1_supply); split; lra.
Qed.

(** ** Change of price unit *)

Lemma pct_diff_scale (k a b : Q) :
  0 < k ->
  1 # 1000000000 < Qabs b ->
  1 # 1000000000 < Qabs (k * b) ->
  _pct_diff (k * a) (k * b) == _pct_diff a b.
Proof.
  intros K B KB. rewrite !pct_diff_guard. unfold rel_dist_guard.
  destruct (Qlt_le_dec (1 # 1000000000) (Qabs (k * b))); [| exfalso; lra].
  destruct (Qlt_le_dec (1 # 1000000000) (Qabs b)); [| exfalso; lra].
  assert (E : k * a - k * b == k * (a - b)) by ring.
  rewrite E, !Qabs_Qmult, (Qabs_pos k) by lra.
  field. split; lra.
Qed.

Lemma references_scale (k : Q) (role : Role) (wv wp wh fv fp fh : Q) :
  references role (k * wv) (k * wp) (k * wh) (k * fv) (k * fp) (k * fh)
  = map (Qmult k) (references role wv wp wh fv fp fh).
Proof. destruct role; reflexivity. Qed.

(** X19.  The score does not depend on the unit of price: multiplying the
    level and the six marks by the same positive factor leaves it unchanged,
    as long as the references of the role stay above the 1e-9 guard of
    [_pct_diff] before and after. *)
Theorem frvp_alignment_scale (k level : Q) (role : Role)
    (weekly_val weekly_poc weekly_vah f24_val f24_poc f24_vah : Q) :
  0 < k ->
  Forall (fun ref => 1 # 1000000000 < Qabs ref /\ 1 # 1000000000 < Qabs (k * ref))
         (references role weekly_val weekly_poc weekly_vah f24_val f24_poc f24_vah) ->
  _frvp_alignment (k * level) role
    (k * weekly_val) (k * weekly_poc) (k * weekly_vah)
    (k * f24_val) (k * f24_poc) (k * f24_vah)
  = _frvp_alignment level role
      weekly_val weekly_poc weekly_vah f24_val f24_poc f24_vah.
Proof.
  intros K A. rewrite !frvp_alignment_band. apply band_comp.
  rewrite Forall_forall in A.
  set (m' := min_pct (k * level) _ _ _ _ _ _ _).
  set (m := min_pct level _ _ _ _ _ _ _).
  assert (I : forall c, m' <= c <-> m <= c).
  { intros c. subst m m'. rewrite !min_pct_le_iff, references_scale. split.
    - intros (ref' & In' & L). apply in_map_iff in In'.
      destruct In' as (ref & <- & In0). exists ref. split; [exact In0 |].
      destruct (A ref In0) as [G1 G2].
      now rewrite <- (pct_diff_scale k level ref K G1 G2).
    - intros (ref & In0 & L). exists (k * ref). split; [now apply in_map |].
      destruct (A ref In0) as [G1 G2].
      now rewrite (pct_diff_scale k level ref K G1 G2). }
  apply Qle_antisym.
  - apply I. lra.
  - apply I. lra.
Qed.

Lemma frvp_alignment_scale_witness :
  _frvp_alignment (100 * (1002 # 1000)) Support
    (100 * 1) (100 * 1) (100 * 1) (100 * 1) (100 * 1) (100 * 1)
  = _frvp_alignment (1002 # 1000) Support 1 1 1 1 1 1.
Proof.
  apply frvp_alignment_scale; [reflexivity |].
  repeat constructor.
Defined.

(** * Properties in the arithmetic of the engine *)

(** ** The comparisons of the two carriers *)

Lemma Q_order : order_laws Q.
Proof.
  split; unfold comparable; at_Q.
  - intros a b L. destruct (Qltb_spec a b), (Qleb_spec a b);
      try reflexivity; try discriminate; exfalso; lra.
  - intros a b _ _ L. destruct (Qltb_spec a b), (Qleb_spec b a);
      try reflexivity; try discriminate; exfalso; lra.
  - intros a b c L1 L2.
    destruct (Qleb_spec a b), (Qleb_spec b c), (Qleb_spec a c);
      try reflexivity; try discriminate; exfalso; lra.
Qed.

Lemma SFcompare_key (x y : spec_float) :
  SFcompare x y =
  match sf_key x, sf_key y with
  | Some k1, Some k2 => Some (key_compare k1 k2)
  | _, _ => None
  end.
Proof.
  destruct x as [ [] | [] | | [] m1 e1 ], y as [ [] | [] | | [] m2 e2 ];
    try reflexivity;
    unfold SFcompare, sf_key, key_compare; rewrite Z.compare_refl; f_equal.
  rewrite Z.compare_opp, (Z.compare_opp (Z.pos m1)).
  rewrite (Z.compare_antisym e1 e2).
  change (Pos.compare_cont Eq m1 m2) with (Pos.compare m1 m2).
  destruct (e1 ?= e2)%Z; cbn; try reflexivity.
  symmetry. apply Pos.compare_antisym.
Qed.

Lemma key_compare_antisym (k1 k2 : Z * Z * Z) :
  key_compare k2 k1 = CompOpp (key_compare k1 k2).
Proof.
  destruct k1 as [[a1 b1] c1], k2 as [[a2 b2] c2]. unfold key_compare.
  rewrite (Z.compare_antisym a1 a2), (Z.compare_antisym b1 b2),
    (Z.compare_antisym c1 c2).
  destruct (a1 ?= a2)%Z, (b1 ?= b2)%Z, (c1 ?= c2)%Z; reflexivity.
Qed.

Lemma key_compare_le_trans (k1 k2 k3 : Z * Z * Z) :
  key_compare k1 k2 <> Gt -> key_compare k2 k3 <> Gt -> key_compare k1 k3 <> Gt.
Proof.
  destruct k1 as [[a1 b1] c1], k2 as [[a2 b2] c2], k3 as [[a3 b3] c3].
  unfold key_compare.
  destruct (Z.compare_spec a1 a2), (Z.compare_spec a2 a3), (Z.compare_spec a1 a3);
    try lia; try congruence;
  destruct (Z.compare_spec b1 b2), (Z.compare_spec b2 b3), (Z.compare_spec b1 b3);
    try lia; try congruence;
  destruct (Z.compare_spec c1 c2), (Z.compare_spec c2 c3), (Z.compare_spec c1 c3);
    try lia; try congruence.
Qed.

Lemma SFleb_refl_key (x : spec_float) : SFleb x x = true -> sf_key x <> None.
Proof. destruct x as [ [] | [] | | [] m e]; cbn; congruence. Qed.

Lemma SFltb_SFleb (x y : spec_float) : SFltb x y = true -> SFleb x y = true.
Proof. unfold SFltb, SFleb. destruct (SFcompare x y) as [[] |]; congruence. Qed.

Lemma SFleb_total (x y : spec_float) :
  SFleb x x = true -> SFleb y y = true -> SFltb x y = false -> SFleb y x = true.
Proof.
  intros X Y. apply SFleb_refl_key in X, Y.
  unfold SFltb, SFleb. rewrite !SFcompare_key.
  destruct (sf_key x) as [k1 |], (sf_key y) as [k2 |]; try congruence.
  rewrite (key_compare_antisym k1 k2). destruct (key_compare k1 k2); cbn; congruence.
Qed.

Lemma SFleb_trans (x y z : spec_float) :
  SFleb x y = true -> SFleb y z = true -> SFleb x z = true.
Proof.
  unfold SFleb. rewrite !SFcompare_key.
  destruct (sf_key x) as [k1 |], (sf_key y) as [k2 |], (sf_key z) as [k3 |];
    try congruence.
  intros A B. pose proof (key_compare_le_trans k1 k2 k3) as T.
  destruct (key_compare k1 k2), (key_compare k2 k3), (key_compare k1 k3);
    try congruence; exfalso; apply T; congruence.
Qed.

(** The comparisons of binary64 obey the same laws on everything but NaN. *)
Lemma float_order : order_laws float.
Proof.
  split; unfold comparable;
    cbv [leb ltb float_PyNum]; intros *; rewrite ?FloatAxioms.leb_spec, ?FloatAxioms.ltb_spec.
  - apply SFltb_SFleb.
  - apply SFleb_total.
  - apply SFleb_trans.
Qed.

(** ** Minima under the laws *)

Section Ordered.

Context {F : Type} `{PyNum F}.
Hypothesis laws : order_laws F.

(** [m] is a least element of [xs]. *)
Let least_in (m : F) (xs : list F) : Prop :=
  In m xs /\ Forall (fun x => (m <=? x)%py = true) xs.

Lemma leb_either (a b : F) :
  comparable a -> comparable b -> (a <=? b)%py = false -> (b <=? a)%py = true.
Proof.
  intros A B L. destruct (b <? a)%py eqn:E.
  - now apply (ltb_leb F laws).
  - rewrite (leb_total F laws b a B A E) in L. discriminate.
Qed.

Lemma py_min2_least (a b : F) :
  comparable a -> comparable b ->
  (py_min2 a b = a \/ py_min2 a b = b) /\
  (py_min2 a b <=? a)%py = true /\ (py_min2 a b <=? b)%py = true.
Proof.
  intros A B. unfold py_min2. destruct (b <? a)%py eqn:E.
  - repeat split; auto. now apply (ltb_leb F laws).
  - repeat split; auto. now apply (leb_total F laws b a).
Qed.

Lemma smaller_least (a b : F) :
  comparable a -> comparable b ->
  (smaller a b = a \/ smaller a b = b) /\
  (smaller a b <=? a)%py = true /\ (smaller a b <=? b)%py = true.
Proof.
  intros A B. unfold smaller. destruct (a <=? b)%py eqn:E.
  - repeat split; auto.
  - repeat split; auto. now apply leb_either.
Qed.

Lemma py_min_least (xs : list F) (x : F) :
  comparable x -> Forall comparable xs -> least_in (py_min x xs) (x :: xs).
Proof.
  unfold py_min, least_in. revert x.
  induction xs as [| a xs IH]; intros x X A; cbn [fold_left].
  - split; [now left | constructor; [exact X | constructor]].
  - inversion_clear A as [| ? ? Ca Cxs].
    destruct (py_min2_least x a X Ca) as (Cases & Lx & La).
    assert (Cm : comparable (py_min2 x a)) by (destruct Cases as [-> | ->]; assumption).
    destruct (IH (py_min2 x a) Cm Cxs) as [I L].
    inversion_clear L as [| ? ? L0 L1].
    split.
    + destruct I as [<- | I]; [destruct Cases as [-> | ->]; cbn; auto | cbn; auto].
    + constructor; [eapply (leb_trans F laws); eassumption |].
      constructor; [eapply (leb_trans F laws); eassumption | exact L1].
Qed.

Lemma minimum_of_least (xs : list F) (x : F) :
  comparable x -> Forall comparable xs -> least_in (minimum_of x xs) (x :: xs).
Proof.
  unfold least_in. revert x.
  induction xs as [| a xs IH]; intros x X A; cbn [minimum_of].
  - split; [now left | constructor; [exact X | constructor]].
  - inversion_clear A as [| ? ? Ca Cxs].
    destruct (IH a Ca Cxs) as [I L].
    assert (Cm : comparable (minimum_of a xs)).
    { clear - I Ca Cxs. destruct I as [<- | I]; [exact Ca |].
      rewrite Forall_forall in Cxs. now apply Cxs. }
    destruct (smaller_least x (minimum_of a xs) X Cm) as (Cases & Lx & Lm).
    split.
    + destruct Cases as [-> | ->]; [now left | now right].
    + constructor; [exact Lx |].
      eapply Forall_impl; [| exact L]. cbv beta. intros y Ly.
      eapply (leb_trans F laws); eassumption.
Qed.

Lemma least_in_same_side (m m' t : F) (xs : list F) :
  least_in m xs -> least_in m' xs -> (m <=? t)%py = (m' <=? t)%py.
Proof.
  intros [I L] [I' L']. rewrite Forall_forall in L, L'.
  pose proof (L m' I') as A. pose proof (L' m I) as B.
  destruct (m <=? t)%py eqn:E, (m' <=? t)%py eqn:E'; try reflexivity.
  - rewrite (leb_trans F laws m' m t B E) in E'. discriminate.
  - rewrite (leb_trans F laws m m' t A E') in E. discriminate.
Qed.

Lemma min_pct_is_py_min (level : F) (role : Role) (wv wp wh fv fp fh : F) :
  match map (_pct_diff level) (references_of role wv wp wh fv fp fh) with
  | [] => False
  | d :: ds => min_pct level role wv wp wh fv fp fh = py_min d ds
  end.
Proof. destruct role; reflexivity. Qed.

(** C3, as amended.  In the arithmetic of the engine, for every level, role
    and six marks whose four distances are numbers, the alignment score
    equals the reference definition: the four role-dependent references, the
    relative distance [|level - ref| / m] with [m = |ref|] when [|ref|]
    exceeds 1e-9 and [m = 1] otherwise, the least of the four, and 2, 1 or 0
    according to the thresholds 0.0015 and 0.0030. *)
Theorem frvp_alignment_engine_reference (level : F) (role : Role)
    (weekly_val weekly_poc weekly_vah f24_val f24_poc f24_vah : F) :
  Forall comparable
    (map (reference_distance level)
       (references_of role weekly_val weekly_poc weekly_vah f24_val f24_poc f24_vah)) ->
  _frvp_alignment level role weekly_val weekly_poc weekly_vah f24_val f24_poc f24_vah
  = alignment_reference level role
      weekly_val weekly_poc weekly_vah f24_val f24_poc f24_vah.
Proof.
  intros C. unfold _frvp_alignment, alignment_reference.
  pose proof (min_pct_is_py_min level role
                weekly_val weekly_poc weekly_vah f24_val f24_poc f24_vah) as M.
  change (map (_pct_diff level)) with (map (reference_distance level)) in M.
  destruct (map (reference_distance level) _) as [| d ds]; [contradiction |].
  rewrite M. inversion_clear C as [| ? ? Cd Cds].
  pose proof (py_min_least ds d Cd Cds) as P.
  pose proof (minimum_of_least ds d Cd Cds) as R.
  rewrite (least_in_same_side _ _ (lit (15 # 10000)) _ P R).
  rewrite (least_in_same_side _ _ (lit (30 # 10000)) _ P R).
  reflexivity.
Qed.




End Ordered.

(** On binary64, at a level whose quotient rounds onto the threshold: the
    engine and the reference both score 2. *)
Lemma frvp_alignment_engine_reference_b64 :
  let level : float := lit (4606900000001335 # 4398046511104) in
  let mark : float := lit (4600000000001333 # 4398046511104) in
  _frvp_alignment level Support mark mark mark mark mark mark
  = alignment_reference level Support mark mark mark mark mark mark.
Proof.
  apply (frvp_alignment_engine_reference float_order).
  vm_compute. repeat constructor.
Defined.



(** The same input through the facade: the four fields coincide. *)
Example b64_absorbed_spacing :
  let s : float := lit (-100000000000000000) in
  let out := compute_dm_levels s s s s s s s s s s s s s s s in
  [daily_support out; breakdown_trigger out; breakout_trigger out;
   daily_resistance out] = [s; s; s; s].
Proof. vm_compute. reflexivity. Qed.

(** ** Monotonicity in the distance to the nearest reference *)

Lemma min_pct_nearest_distance (level : Q) (role : Role) (wv wp wh fv fp fh : Q) :
  min_pct level role wv wp wh fv fp fh
  == nearest_distance level role wv wp wh fv fp fh.
Proof.
  unfold nearest_distance. apply min_pct_least.
  apply Forall_forall. intros ref _. now rewrite pct_diff_guard.
Qed.

(** C6.  For every role and fixed marks the score is monotone in the
    distance to the nearest reference, the least of the four relative
    distances [|level - ref| / m]: of two levels, the one strictly closer to
    its nearest reference never scores less.  Read from [far] to [near],
    moving closer never decreases the score; read from [near] to [far],
    moving farther never increases it. *)
Theorem frvp_alignment_monotone_in_distance (near far : Q) (role : Role)
    (weekly_val weekly_poc weekly_vah f24_val f24_poc f24_vah : Q) :
  nearest_distance near role weekly_val weekly_poc weekly_vah f24_val f24_poc f24_vah
  < nearest_distance far role weekly_val weekly_poc weekly_vah f24_val f24_poc f24_vah ->
  (_frvp_alignment far role weekly_val weekly_poc weekly_vah f24_val f24_poc f24_vah
   <= _frvp_alignment near role weekly_val weekly_poc weekly_vah f24_val f24_poc f24_vah)%Z.
Proof.
  intros L. rewrite <- !min_pct_nearest_distance in L.
  rewrite !frvp_alignment_band.
  set (n := min_pct near _ _ _ _ _ _ _) in *.
  set (f := min_pct far _ _ _ _ _ _ _) in *.
  unfold band.
  destruct (Qlt_le_dec (15 # 10000) f), (Qlt_le_dec (15 # 10000) n);
    try lia; try (exfalso; lra);
  destruct (Qlt_le_dec (30 # 10000) f), (Qlt_le_dec (30 # 10000) n);
    try lia; exfalso; lra.
Qed.

Lemma frvp_alignment_monotone_in_distance_witness :
  Z.le (_frvp_alignment (1002 # 10) Support 100 100 100 100 100 100)
       (_frvp_alignment 100 Support 100 100 100 100 100 100).
Proof.
  apply frvp_alignment_monotone_in_distance. vm_compute. reflexivity.
Defined.
